(** * Mantle faucet: the withdrawal handler of [main.go]

    A shallow embedding of [handleWithdraw] and [initConfig].  The handler is
    one Go function that talks to the outside world (JSON binding, the clock,
    [strconv], the chain client, the signer) and mutates one global, the
    [accounts] map.  The outside world is a record of answers ([World]); the
    handler is a computation in a small monad that threads the [accounts]
    map, the response written so far and the trace of external calls, and
    that can leave early with [return] or by a run-time panic.  Log lines
    ([logger.Error], [fmt.Println]) are not part of the model.  A run is a
    sequence of requests handled one after another against the same
    ledger, as the process started by [main] sees them when they do not
    overlap. *)

From Stdlib Require Import ZArith NArith Ascii String List Bool Lia.
From stdpp Require Import base option gmap strings pretty.

Local Open Scope string_scope.
Local Open Scope Z_scope.

(** ** Machine integers and time *)

(** Go's [int64] arithmetic wraps around. *)
Definition wrap64 (z : Z) : Z := (z + 2 ^ 63) mod 2 ^ 64 - 2 ^ 63.

Definition int64_range (z : Z) : Prop := - 2 ^ 63 <= z < 2 ^ 63.

(** [time.Duration] is an [int64] count of nanoseconds. *)
Definition Duration := Z.
Definition Nanosecond : Duration := 1.
Definition Second : Duration := 1000000000 * Nanosecond.
Definition Hour : Duration := 3600 * Second.
Definition minDuration : Duration := - 2 ^ 63.
Definition maxDuration : Duration := 2 ^ 63 - 1.

(** A [time.Time] taken with [time.Now()] carries a monotonic clock reading
    (nanoseconds since the process started, an [int64]); [time.Since] uses
    only that reading. *)
Definition Time := Z.

(** [time.subMono]: the difference of two monotonic readings, saturated. *)
Definition subMono (t u : Z) : Duration :=
  let d := wrap64 (t - u) in
  if (d <? 0) && (u <? t) then maxDuration
  else if (0 <? d) && (t <? u) then minDuration
  else d.

(** ** Floating point: [float64] and [big.Float] at precision 53 *)

(** A [float64] is NaN, an infinity, or [(-1)^neg * m * 2^e]. *)
Inductive float64 :=
| NaN
| Inf (neg : bool)
| Finite (neg : bool) (m : N) (e : Z).

(** [m / 2^s] rounded to nearest, ties to even. *)
Definition round_even (m s : N) : N :=
  if (s =? 0)%N then m
  else
    let q := N.shiftr m s in
    let r := N.land m (N.ones s) in
    let half := N.shiftl 1 (s - 1) in
    if (half <? r)%N || ((r =? half)%N && N.odd q) then (q + 1)%N else q.

(** Rounding of [m * 2^e] to a 53-bit mantissa ([big.ToNearestEven]). *)
Definition round53 (m : N) (e : Z) : N * Z :=
  let n := N.size m in
  if (n <=? 53)%N then (m, e)
  else let s := (n - 53)%N in (round_even m s, e + Z.of_N s).

(** A [big.Float] made by [big.NewFloat]: precision 53, rounding to nearest
    even, an exponent range far beyond that of [float64]. *)
Inductive Float :=
| FloatInf (neg : bool)
| FloatFin (neg : bool) (m : N) (e : Z).

(** [big.NewFloat(x)]: panics with [ErrNaN] when [x] is NaN ([None]). *)
Definition NewFloat (x : float64) : option Float :=
  match x with
  | NaN => None
  | Inf neg => Some (FloatInf neg)
  | Finite neg m e => Some (FloatFin neg m e)
  end.

Definition Float_is_zero (x : Float) : bool :=
  match x with FloatFin _ 0%N _ => true | _ => false end.

Definition Float_neg (x : Float) : bool :=
  match x with FloatInf n => n | FloatFin n _ _ => n end.

(** [z.Mul(x, y)] with [z] of precision 53: the exact product, rounded.
    Zero times infinity panics with [ErrNaN] ([None]). *)
Definition Float_Mul (x y : Float) : option Float :=
  match x, y with
  | FloatFin nx mx ex, FloatFin ny my ey =>
      let '(m, e) := round53 (mx * my) (ex + ey) in
      Some (FloatFin (xorb nx ny) m e)
  | _, _ =>
      if Float_is_zero x || Float_is_zero y then None
      else Some (FloatInf (xorb (Float_neg x) (Float_neg y)))
  end.

(** [x.Int(z)]: [z] is set to [x] truncated towards zero; for an infinity
    the method returns nil and leaves [z] as it was. *)
Definition Float_Int (x : Float) (z : Z) : Z :=
  match x with
  | FloatFin neg m e =>
      let a := Z.shiftl (Z.of_N m) e in
      if neg then - a else a
  | FloatInf _ => z
  end.

(** The constant [1e18] of line 109 as a [float64]: [5^18 * 2^18], exact. *)
Definition f64_1e18 : float64 := Finite false (5 ^ 18)%N 18.

(** ** Data of the service *)

Definition error := string.

Record RequestBody := {
  Network : string;
  Address : string;
  Amount : string
}.

(** The field [Data] ([omitempty]) is never set by the handler. *)
Record ApiResponse := {
  Success : bool;
  Message : string
}.

Record Account := {
  Account_Address : string;
  LastWithdrawTime : Time
}.

(** Values stored in a [gin.H]. *)
Inductive JSON :=
| JBool (b : bool)
| JString (s : string).

Inductive Body :=
| BodyApi (r : ApiResponse)
| BodyH (h : gmap string JSON).

Record Response := {
  status : Z;
  body : Body
}.

Definition StatusOK : Z := 200.
Definition StatusBadRequest : Z := 400.
Definition StatusForbidden : Z := 403.
Definition StatusInternalServerError : Z := 500.

(** The package-level variables that [initConfig] fills in. *)
Record Config := {
  integerDefault : Z;
  privateKeyDefault : string;
  portDefault : string;
  explorerUrlDefault : string
}.

(** ** The chain client and the signer *)

Definition EthAddress := Z.
Definition PrivateKey := Z.

Record CallMsg := {
  msg_From : EthAddress;
  msg_To : EthAddress;
  msg_GasFeeCap : Z;
  msg_GasTipCap : Z;
  msg_Value : Z;
  msg_Data : list Z
}.

Record DynamicFeeTx := {
  ChainID : Z;
  Nonce : Z;
  GasFeeCap : Z;
  GasTipCap : Z;
  Gas : Z;
  To : EthAddress;
  Value : Z;
  Data : list Z
}.

Record Transaction := {
  inner : DynamicFeeTx;
  signature : option Z
}.

Definition NewTx (d : DynamicFeeTx) : Transaction :=
  {| inner := d; signature := None |}.

(** The result of a call that may panic instead of returning. *)
Inductive Call (A : Type) :=
| Done (a : A)
| Panics.
Arguments Done {A} a.
Arguments Panics {A}.

(** Everything the handler asks of its environment during one request.  A Go
    result pair [(v, err)] is a sum where the library returns one or the
    other, and a pair where the handler can see both. *)
Record World := {
  ShouldBindJSON : RequestBody * option error;
  IsHexAddress : string -> bool;
  (** monotonic reading taken by [time.Since] on line 93 *)
  clock_Since : Time;
  (** monotonic reading taken by [time.Now] on line 250 *)
  clock_Now : Time;
  ParseFloat : string -> float64 * option error;
  DialContext : string -> option error;
  HexToECDSA : string -> PrivateKey + error;
  PublicIsECDSA : PrivateKey -> bool;
  PubkeyToAddress : PrivateKey -> EthAddress;
  AddressString : EthAddress -> string;
  HexToAddress : string -> EthAddress;
  (** the balance pointer (nil is [None]) and the error, independently *)
  BalanceAt : EthAddress -> option Z * option error;
  PendingNonceAt : EthAddress -> Z + error;
  SuggestGasPrice : Z + error;
  SuggestGasTipCap : Z + error;
  NetworkID : Z + error;
  EstimateGas : CallMsg -> Z + error;
  SignTx : Transaction -> Z -> PrivateKey -> Transaction + error;
  (** called with the pointer [SignTx] returned, nil ([None]) included *)
  SendTransaction : option Transaction -> Call (option error);
  HashHex : Transaction -> string
}.

(** External calls, in the order they happen. *)
Inductive Event :=
| EvDial (url : string)
| EvBalanceAt (account : EthAddress)
| EvPendingNonceAt (account : EthAddress)
| EvSuggestGasPrice
| EvSuggestGasTipCap
| EvNetworkID
| EvEstimateGas (msg : CallMsg)
| EvSignTx (tx : Transaction)
| EvSendTransaction (tx : option Transaction)
| EvClose.

(** ** The handler monad *)

Record Ctx := {
  accounts : gmap string Account;
  written : option Response;
  trace : list Event
}.

(** How a piece of the handler ends: it falls through with a value, it
    executes [return], or it panics. *)
Inductive Ctl (A : Type) :=
| Next (a : A)
| Returned
| Panicked.
Arguments Next {A} a.
Arguments Returned {A}.
Arguments Panicked {A}.

Definition M (A : Type) : Type := Ctx -> Ctl A * Ctx.

Definition ret {A} (a : A) : M A := fun s => (Next a, s).

Definition bind {A B} (k : A -> M B) (c : M A) : M B :=
  fun s =>
    match c s with
    | (Next a, s') => k a s'
    | (Returned, s') => (Returned, s')
    | (Panicked, s') => (Panicked, s')
    end.

(** stdpp's monad notations: [x ← c; k] and [c;; k]. *)
#[global] Instance M_ret : MRet M := @ret.
#[global] Instance M_bind : MBind M := @bind.

Definition return_ {A} : M A := fun s => (Returned, s).
Definition panic {A} : M A := fun s => (Panicked, s).

Definition when (b : bool) (c : M unit) : M unit :=
  if b then c else ret tt.

Definition call (ev : Event) : M unit :=
  fun s => (Next tt, {| accounts := accounts s; written := written s;
                        trace := trace s ++ [ev] |}).

Definition c_JSON (code : Z) (b : Body) : M unit :=
  fun s => (Next tt, {| accounts := accounts s;
                        written := Some {| status := code; body := b |};
                        trace := trace s |}).

Definition get_accounts : M (gmap string Account) :=
  fun s => (Next (accounts s), s).

Definition set_account (k : string) (v : Account) : M unit :=
  fun s => (Next tt, {| accounts := <[k := v]> (accounts s);
                        written := written s; trace := trace s |}).

(** [defer f]: [f] runs when the rest of the function ends, however it ends. *)
Definition defer {A} (ev : Event) (c : M A) : M A :=
  fun s =>
    let '(r, s') := c s in
    (r, {| accounts := accounts s'; written := written s';
           trace := trace s' ++ [ev] |}).

(** A panicking library call. *)
Definition from_option {A} (o : option A) : M A :=
  match o with Some a => ret a | None => panic end.

(** [c.JSON(code, ApiResponse{Success: false, Message: msg}); return] *)
Definition fail {A} (code : Z) (msg : string) : M A :=
  c_JSON code (BodyApi {| Success := false; Message := msg |});; return_.

(** [v, err := f(...); if err != nil { c.JSON(500, ...msg); return }] *)
Definition or_fail {A} (r : A + error) (msg : string) : M A :=
  match r with
  | inl a => mret a
  | inr _ => fail StatusInternalServerError msg
  end.

(** [x.Cmp(y)] of [big.Int]. *)
Definition Cmp (x y : Z) : Z :=
  match x ?= y with Lt => -1 | Eq => 0 | Gt => 1 end.

(** ** [initConfig] (lines 271-288) *)

(** The configuration file as [viper] shows it. *)
Record Viper := {
  ReadInConfig : option error;
  GetInt : string -> Z;
  GetString : string -> string
}.

Definition initConfig (v : Viper) : Config + error :=
  match ReadInConfig v with
  | Some err => inr err
  | None =>
      inl {| integerDefault := GetInt v "interval";
             privateKeyDefault := GetString v "privateKey";
             portDefault := ":" +:+ pretty (GetInt v "port");
             explorerUrlDefault := GetString v "sepolia.explorerUrl" |}
  end.

(** ** [handleWithdraw] (lines 70-258), stage by stage *)

(** Lines 71-78: bind the JSON body. *)
Definition bindRequest (w : World) : M RequestBody :=
  let '(req, err) := ShouldBindJSON w in
  match err with
  | Some e => fail StatusBadRequest e
  | None => mret req
  end.

(** Lines 80-87: the address format. *)
Definition checkAddress (w : World) (Address : string) : M unit :=
  when (negb (IsHexAddress w Address))
    (fail StatusBadRequest "Please check and enter a valid wallet address.").

(** Line 92: [time.Duration(integerDefault) * time.Hour]. *)
Definition cooldown (cfg : Config) : Duration :=
  wrap64 (integerDefault cfg * Hour).

(** Lines 89-100: the cooldown guard. *)
Definition checkCooldown (cfg : Config) (w : World) (Address : string) : M unit :=
  accs ← get_accounts;
  match accs !! Address with
  | Some account_user =>
      let duration := cooldown cfg in
      when (subMono (clock_Since w) (LastWithdrawTime account_user) <? duration)
        (fail StatusForbidden "You can only withdraw once every 24 hours.")
  | None => mret tt
  end.

(** Lines 108-111: from the parsed [float64] to the integer amount;
    [None] is a panic ([ErrNaN]). *)
Definition toInt (amountFloat64 : float64) : option Z :=
  amount ← NewFloat amountFloat64;
  scale ← NewFloat f64_1e18;
  amount ← Float_Mul amount scale;
  Some (Float_Int amount 0).

(** Lines 103-111: amount normalization.  On a parse error the handler
    prints to standard output and returns; it writes no response. *)
Definition normalizeAmount (w : World) (s : string) : M Z :=
  let '(amountFloat64, err) := ParseFloat w s in
  match err with
  | Some _ => return_
  | None => from_option (toInt amountFloat64)
  end.

(** Lines 124-258: everything after the connection is open. *)
Definition transfer (cfg : Config) (w : World) (Address : string)
    (intAmount : Z) : M unit :=
  privateKey ← or_fail (HexToECDSA w (privateKeyDefault cfg))
                 "Failed to decode private key";
  when (negb (PublicIsECDSA w privateKey))
    (fail StatusInternalServerError "Failed to decode private key");;
  let fromAddress := PubkeyToAddress w privateKey in
  let account := HexToAddress w (AddressString w fromAddress) in
  call (EvBalanceAt account);;
  let '(balance, _) := BalanceAt w account in
  (* [balance.Cmp] dereferences [balance] *)
  balance ← from_option balance;
  when (Cmp balance intAmount =? -1)
    (fail StatusBadRequest "Insufficient balance");;
  call (EvPendingNonceAt fromAddress);;
  nonce ← or_fail (PendingNonceAt w fromAddress) "Failed to get nonce";
  call EvSuggestGasPrice;;
  gasFeeCap ← or_fail (SuggestGasPrice w) "Failed to get gas price";
  call EvSuggestGasTipCap;;
  gasTipCap ← or_fail (SuggestGasTipCap w) "Failed to get gas tip cap";
  let data : list Z := [] in
  call EvNetworkID;;
  chainID ← or_fail (NetworkID w) "Failed to get network ID";
  let toAddress := HexToAddress w Address in
  let msg := {| msg_From := fromAddress; msg_To := toAddress;
                msg_GasFeeCap := gasFeeCap; msg_GasTipCap := gasTipCap;
                msg_Value := intAmount; msg_Data := data |} in
  call (EvEstimateGas msg);;
  gasLimit ← or_fail (EstimateGas w msg) "Failed to estimate gas";
  let tx := NewTx {| ChainID := chainID; Nonce := nonce;
                     GasFeeCap := gasFeeCap; GasTipCap := gasTipCap;
                     Gas := gasLimit; To := toAddress;
                     Value := intAmount; Data := data |} in
  call (EvSignTx tx);;
  (* line 237: the error of [SignTx] is overwritten on line 238 *)
  let signedTx := match SignTx w tx chainID privateKey with
                  | inl t => Some t
                  | inr _ => None
                  end in
  call (EvSendTransaction signedTx);;
  err ← match SendTransaction w signedTx with
        | Done e => mret e
        | Panics => panic
        end;
  match err with
  | Some _ => fail StatusInternalServerError "Deal failed"
  | None =>
      set_account Address {| Account_Address := Address;
                             LastWithdrawTime := clock_Now w |};;
      (* [signedTx.Hash()] dereferences [signedTx] *)
      tx_id ← from_option (HashHex w <$> signedTx);
      c_JSON StatusOK
        (BodyH (<["success" := JBool true]>
               (<["tx_id" := JString tx_id]>
               (<["explorer_url" := JString (explorerUrlDefault cfg +:+ tx_id)]>
                ∅))))
  end.

(** Lines 113-258: dial, then [transfer] under [defer client.Close()]. *)
Definition disburse (cfg : Config) (w : World) (req : RequestBody)
    (intAmount : Z) : M unit :=
  let url := "https://" +:+ Network req in
  call (EvDial url);;
  match DialContext w url with
  | Some _ => fail StatusInternalServerError "Failed to connect to Mantle client"
  | None => defer EvClose (transfer cfg w (Address req) intAmount)
  end.

Definition handleWithdraw (cfg : Config) (w : World) : M unit :=
  req ← bindRequest w;
  checkAddress w (Address req);;
  checkCooldown cfg w (Address req);;
  intAmount ← normalizeAmount w (Amount req);
  disburse cfg w req intAmount.

(** One request against the ledger [accs]: how the handler ended and the
    final context. *)
Definition serve (cfg : Config) (w : World) (accs : gmap string Account)
    : Ctl unit * Ctx :=
  handleWithdraw cfg w {| accounts := accs; written := None; trace := [] |}.

Definition response (out : Ctl unit * Ctx) : option Response := written out.2.
Definition ledger (out : Ctl unit * Ctx) : gmap string Account := accounts out.2.
Definition calls (out : Ctl unit * Ctx) : list Event := trace out.2.

(** ** What the libraries promise *)

(** [strconv.ParseFloat(s, 64)] returns the [float64] nearest to a decimal
    literal, ties to even, and [ErrRange] with an infinity beyond the
    largest one.  [decimalLiteral] reads the plain literals
    [[+-]digits[.digits]]; [nearest64] rounds the fraction [n / d]. *)

Definition digit_of (a : ascii) : option N :=
  let c := N_of_ascii a in
  if (48 <=? c)%N && (c <=? 57)%N then Some (c - 48)%N else None.

Fixpoint read_digits (s : string) (acc : N) (cnt : nat) : N * nat * string :=
  match s with
  | String a s' =>
      match digit_of a with
      | Some d => read_digits s' (10 * acc + d)%N (S cnt)
      | None => (acc, cnt, s)
      end
  | EmptyString => (acc, cnt, s)
  end.

(** The sign, the numerator and the power of ten below it. *)
Definition decimalLiteral (s : string) : option (bool * N * N) :=
  let '(neg, s1) :=
    match s with
    | String "-" r => (true, r)
    | String "+" r => (false, r)
    | _ => (false, s)
    end in
  let '(ip, ni, s2) := read_digits s1 0 0 in
  match s2 with
  | EmptyString => if (ni =? 0)%nat then None else Some (neg, ip, 1%N)
  | String "." s3 =>
      let '(n, nf, s4) := read_digits s3 ip 0 in
      match s4 with
      | EmptyString =>
          if (ni + nf =? 0)%nat then None else Some (neg, n, (10 ^ N.of_nat nf)%N)
      | _ => None
      end
  | _ => None
  end.

(** Mantissas are kept odd, so that equal values are equal terms. *)
Fixpoint strip_zeros (p : positive) (e : Z) : positive * Z :=
  match p with
  | xO p' => strip_zeros p' (e + 1)
  | _ => (p, e)
  end.

Definition canonical (neg : bool) (m : N) (e : Z) : float64 :=
  match m with
  | N0 => Finite neg 0 0
  | Npos p => let '(p', e') := strip_zeros p e in Finite neg (Npos p') e'
  end.

Definition nearest64 (neg : bool) (n d : N) : float64 * option error :=
  if (n =? 0)%N then (Finite neg 0 0, None)
  else
    let scaled (e : Z) : N * N :=
      if 0 <=? e then (n, d * 2 ^ Z.to_N e)%N else (n * 2 ^ Z.to_N (- e), d)%N in
    (* [n/d] lies strictly between [2^(k-1)] and [2^(k+1)] *)
    let k := Z.of_N (N.size n) - Z.of_N (N.size d) in
    let e0 := k - 53 in
    let '(a0, b0) := scaled e0 in
    let e1 := if (2 ^ 53 <=? a0 / b0)%N then e0 + 1 else e0 in
    (* below the normal range the spacing stays [2^-1074] *)
    let e := Z.max e1 (-1074) in
    let '(a, b) := scaled e in
    let q := (a / b)%N in
    let r := (a mod b)%N in
    let q' := if (b <? 2 * r)%N || ((2 * r =? b)%N && N.odd q)
              then (q + 1)%N else q in
    if (971 <? e) || ((e =? 971) && (q' =? 2 ^ 53)%N)
    then (Inf neg, Some "value out of range")
    else (canonical neg q' e, None).

Definition ParseFloat_rounds_decimals (w : World) : Prop :=
  forall s neg n d,
    decimalLiteral s = Some (neg, n, d) ->
    ParseFloat w s = nearest64 neg n d.

(** ** A concrete environment, for examples *)

Module Sample.

(** [common.IsHexAddress] of go-ethereum: an optional [0x] or [0X], then
    exactly forty hexadecimal digits. *)
Definition isHexCharacter (a : ascii) : bool :=
  let c := N_of_ascii a in
  ((48 <=? c) && (c <=? 57) || (97 <=? c) && (c <=? 102)
   || (65 <=? c) && (c <=? 70))%N.

Fixpoint all_hex (s : string) : bool :=
  match s with
  | EmptyString => true
  | String a s' => isHexCharacter a && all_hex s'
  end.

Definition has0xPrefix (s : string) : bool :=
  match s with
  | String "0" (String "x" _) | String "0" (String "X" _) => true
  | _ => false
  end.

Definition common_IsHexAddress (s : string) : bool :=
  let s := if has0xPrefix s then String.substring 2 (String.length s - 2) s else s in
  (String.length s =? 40)%nat && all_hex s.

(** [strconv.ParseFloat(s, 64)]: the special values, then decimal and
    hexadecimal mantissas with digit-separating underscores and an
    exponent, rounded to the nearest [float64]. *)

Definition lower (a : ascii) : ascii :=
  let c := N_of_ascii a in
  if ((65 <=? c) && (c <=? 90))%N then ascii_of_N (c + 32) else a.

Fixpoint lower_string (s : string) : string :=
  match s with
  | EmptyString => EmptyString
  | String a s' => String (lower a) (lower_string s')
  end.

Definition is_inf (l : string) : bool :=
  String.eqb l "inf" || String.eqb l "infinity".

(** [special]: "inf" and "infinity" with an optional sign, "nan" without,
    in any letter case. *)
Definition special (s : string) : option float64 :=
  match s with
  | String "+" r => if is_inf (lower_string r) then Some (Inf false) else None
  | String "-" r => if is_inf (lower_string r) then Some (Inf true) else None
  | _ =>
      let l := lower_string s in
      if is_inf l then Some (Inf false)
      else if String.eqb l "nan" then Some NaN else None
  end.

Definition hex_digit (a : ascii) : option N :=
  let c := N_of_ascii (lower a) in
  if ((48 <=? c) && (c <=? 57))%N then Some (c - 48)%N
  else if ((97 <=? c) && (c <=? 102))%N then Some (c - 87)%N
  else None.

(** The mantissa read so far: the digits as a number, how many of them came
    after the point, whether a point and whether a digit was seen. *)
Record mantissa := {
  m_value : N;
  m_frac : N;
  m_dot : bool;
  m_digits : bool
}.

(** The mantissa loop of [readFloat]: it returns what it did not read. *)
Fixpoint scan (hex : bool) (s : string) (st : mantissa) : mantissa * string :=
  match s with
  | EmptyString => (st, s)
  | String c s' =>
      if Ascii.eqb c "_" then scan hex s' st
      else if Ascii.eqb c "." then
        if m_dot st then (st, s)
        else scan hex s' {| m_value := m_value st; m_frac := m_frac st;
                            m_dot := true; m_digits := m_digits st |}
      else
        match (if hex then hex_digit c else digit_of c) with
        | Some d =>
            scan hex s'
              {| m_value := ((if hex then 16 else 10) * m_value st + d)%N;
                 m_frac := if m_dot st then (m_frac st + 1)%N else m_frac st;
                 m_dot := m_dot st; m_digits := true |}
        | None => (st, s)
        end
  end.

(** The exponent digits, to the end of the string; the value stops growing
    once it has reached 10000. *)
Fixpoint scan_exp (s : string) (e : N) : option N :=
  match s with
  | EmptyString => Some e
  | String c s' =>
      if Ascii.eqb c "_" then scan_exp s' e
      else match digit_of c with
           | Some d => scan_exp s' (if (e <? 10000)%N then (10 * e + d)%N else e)
           | None => None
           end
  end.

(** What follows the exponent letter: an optional sign and at least one
    digit. *)
Definition exponent (s : string) : option Z :=
  let '(neg, r) :=
    match s with
    | String "+" r => (false, r)
    | String "-" r => (true, r)
    | _ => (false, s)
    end in
  match r with
  | String c _ =>
      match digit_of c with
      | Some _ =>
          match scan_exp r 0 with
          | Some e => Some (if neg then - Z.of_N e else Z.of_N e)
          | None => None
          end
      | None => None
      end
  | EmptyString => None
  end.

Fixpoint has_underscore (s : string) : bool :=
  match s with
  | EmptyString => false
  | String c s' => Ascii.eqb c "_" || has_underscore s'
  end.

(** [underscoreOK]: an underscore stands between two digits, the base
    prefix counting as a digit.  [saw] is the kind of the last character. *)
Fixpoint underscore_walk (hex : bool) (s : string) (saw : ascii) : bool :=
  match s with
  | EmptyString => negb (Ascii.eqb saw "_")
  | String c s' =>
      if bool_decide (is_Some (if hex then hex_digit c else digit_of c))
      then underscore_walk hex s' "0"
      else if Ascii.eqb c "_" then
        if Ascii.eqb saw "0" then underscore_walk hex s' "_" else false
      else if Ascii.eqb saw "_" then false
      else underscore_walk hex s' "!"
  end.

Definition underscoreOK (s : string) : bool :=
  let s :=
    match s with
    | String "+" r | String "-" r => r
    | _ => s
    end in
  match s with
  | String "0" (String p r) =>
      let l := lower p in
      if Ascii.eqb l "b" || Ascii.eqb l "o" || Ascii.eqb l "x"
      then underscore_walk (Ascii.eqb l "x") r "0"
      else underscore_walk false s "^"
  | _ => underscore_walk false s "^"
  end.

(** The number a well-formed literal denotes, as a sign and a fraction, or
    [None] for a syntax error.  The second component tells a hexadecimal
    literal. *)
Definition readFloat (s : string) : option (bool * N * N * bool) :=
  let '(neg, r) :=
    match s with
    | String "+" r => (false, r)
    | String "-" r => (true, r)
    | _ => (false, s)
    end in
  let '(hex, body) :=
    match r with
    | String "0" (String x (String c b)) =>
        if Ascii.eqb (lower x) "x" then (true, String c b) else (false, r)
    | _ => (false, r)
    end in
  let '(m, rest) :=
    scan hex body {| m_value := 0; m_frac := 0; m_dot := false;
                     m_digits := false |} in
  if negb (m_digits m) then None
  else
    let e :=
      match rest with
      | EmptyString => if hex then None else Some 0
      | String c r' =>
          if Ascii.eqb (lower c) (if hex then "p" else "e")
          then exponent r' else None
      end in
    match e with
    | None => None
    | Some e =>
        if has_underscore s && negb (underscoreOK s) then None
        else
          let p := if hex then e - 4 * Z.of_N (m_frac m)
                   else e - Z.of_N (m_frac m) in
          let b := if hex then 2%N else 10%N in
          if 0 <=? p
          then Some (neg, (m_value m * b ^ Z.to_N p)%N, 1%N, hex)
          else Some (neg, m_value m, (b ^ Z.to_N (- p))%N, hex)
    end.

(** A decimal number: a literal that is neither a special value nor
    hexadecimal. *)
Definition is_decimal_number (s : string) : bool :=
  match special s, readFloat s with
  | None, Some (_, _, _, false) => true
  | _, _ => false
  end.

Definition strconv_ParseFloat (s : string) : float64 * option error :=
  match decimalLiteral s with
  | Some (neg, n, d) => nearest64 neg n d
  | None =>
      match special s with
      | Some f => (f, None)
      | None =>
          match readFloat s with
          | Some (neg, n, d, _) => nearest64 neg n d
          | None => (Finite false 0 0, Some "invalid syntax")
          end
      end
  end.

Definition addr : string := "0x52908400098527886E0F7030069857D2E4169EE7".

Definition req (amount : string) : RequestBody :=
  {| Network := "rpc.sepolia.mantle.xyz"; Address := addr; Amount := amount |}.

Definition cfg (interval : Z) : Config + error :=
  initConfig {| ReadInConfig := None;
                GetInt := fun k =>
                  if String.eqb k "interval" then interval
                  else if String.eqb k "port" then 6010 else 0;
                GetString := fun k =>
                  if String.eqb k "privateKey" then "4c0883a6"
                  else if String.eqb k "sepolia.explorerUrl"
                  then "https://explorer.sepolia.mantle.xyz/tx/" else "" |}.

Definition cfg24 : Config :=
  {| integerDefault := 24; privateKeyDefault := "4c0883a6";
     portDefault := ":6010";
     explorerUrlDefault := "https://explorer.sepolia.mantle.xyz/tx/" |}.

Definition cfg12 : Config :=
  {| integerDefault := 12; privateKeyDefault := "4c0883a6";
     portDefault := ":6010";
     explorerUrlDefault := "https://explorer.sepolia.mantle.xyz/tx/" |}.

(** A chain that answers every read; the request, the clock, the balance
    answer, the signer and the broadcast vary. *)
Definition world (r : RequestBody) (since : Time)
    (balance : option Z * option error) (sign_ok : bool)
    (send : option Transaction -> Call (option error)) : World :=
  {| ShouldBindJSON := (r, None);
     IsHexAddress := common_IsHexAddress;
     clock_Since := since;
     clock_Now := since + 5 * Second;
     ParseFloat := strconv_ParseFloat;
     DialContext := fun _ => None;
     HexToECDSA := fun _ => inl 7;
     PublicIsECDSA := fun _ => true;
     PubkeyToAddress := fun k => 1000 + k;
     AddressString := fun a => pretty a;
     HexToAddress := fun s => if String.eqb s addr then 42 else 1007;
     BalanceAt := fun _ => balance;
     PendingNonceAt := fun _ => inl 3;
     SuggestGasPrice := inl 20;
     SuggestGasTipCap := inl 2;
     NetworkID := inl 5003;
     EstimateGas := fun _ => inl 21000;
     SignTx := fun tx _ k =>
       if sign_ok then inl {| inner := inner tx; signature := Some k |}
       else inr "signing failed";
     SendTransaction := send;
     HashHex := fun _ => "0xabc123" |}.

Definition send_ok (tx : option Transaction) : Call (option error) :=
  match tx with Some _ => Done None | None => Panics end.

Definition hour (n : Z) : Time := n * Hour.

Definition recorded (t0 : Time) : gmap string Account :=
  {[ addr := {| Account_Address := addr; LastWithdrawTime := t0 |} ]}.

End Sample.

(** ** Vocabulary of the properties *)

(** The context a request starts in: the ledger as it stands, no response
    written, no call made. *)
Definition ctx0 (accs : gmap string Account) : Ctx :=
  {| accounts := accs; written := None; trace := [] |}.

(** A monotonic clock reading: a non-negative [int64]. *)
Definition mono_reading (t : Time) : Prop := 0 <= t < 2 ^ 63.

(** What the handler leaves behind when the guard rejects. *)
Definition cooldown_rejection (accs : gmap string Account) : Ctl unit * Ctx :=
  (Returned,
   {| accounts := accs;
      written := Some {| status := 403;
                         body := BodyApi {| Success := false;
                           Message := "You can only withdraw once every 24 hours." |} |};
      trace := [] |}).

(** Lines 102-258: what a request that passed the guard goes on to do. *)
Definition proceed (cfg : Config) (w : World) (req : RequestBody) : M unit :=
  intAmount ← normalizeAmount w (Amount req);
  disburse cfg w req intAmount.

(** The guard of lines 89-100 lets the address through. *)
Definition not_in_cooldown (cfg : Config) (w : World)
    (accs : gmap string Account) (a : string) : Prop :=
  match accs !! a with
  | Some rec => cooldown cfg <= subMono (clock_Since w) (LastWithdrawTime rec)
  | None => True
  end.

(** The request binds, names a valid address out of cooldown, and its amount
    normalizes to [intAmount]. *)
Record accepted (cfg : Config) (w : World) (accs : gmap string Account)
    (req : RequestBody) (intAmount : Z) : Prop := {
  acc_bind : ShouldBindJSON w = (req, None);
  acc_addr : IsHexAddress w (Address req) = true;
  acc_cool : not_in_cooldown cfg w accs (Address req);
  acc_amount : exists f,
    ParseFloat w (Amount req) = (f, None) /\ toInt f = Some intAmount
}.

(** The endpoint answers the dial and the configured key decodes to [key]. *)
Record connected (cfg : Config) (w : World) (req : RequestBody)
    (key : PrivateKey) : Prop := {
  con_dial : DialContext w ("https://" +:+ Network req) = None;
  con_key : HexToECDSA w (privateKeyDefault cfg) = inl key;
  con_pub : PublicIsECDSA w key = true
}.

(** The operator account whose balance is read on line 150. *)
Definition operator (w : World) (key : PrivateKey) : EthAddress :=
  HexToAddress w (AddressString w (PubkeyToAddress w key)).

(** The same world, with another answer to [BalanceAt]. *)
Definition with_BalanceAt (w : World)
    (f : EthAddress -> option Z * option error) : World :=
  {| ShouldBindJSON := ShouldBindJSON w;
     IsHexAddress := IsHexAddress w;
     clock_Since := clock_Since w;
     clock_Now := clock_Now w;
     ParseFloat := ParseFloat w;
     DialContext := DialContext w;
     HexToECDSA := HexToECDSA w;
     PublicIsECDSA := PublicIsECDSA w;
     PubkeyToAddress := PubkeyToAddress w;
     AddressString := AddressString w;
     HexToAddress := HexToAddress w;
     BalanceAt := f;
     PendingNonceAt := PendingNonceAt w;
     SuggestGasPrice := SuggestGasPrice w;
     SuggestGasTipCap := SuggestGasTipCap w;
     NetworkID := NetworkID w;
     EstimateGas := EstimateGas w;
     SignTx := SignTx w;
     SendTransaction := SendTransaction w;
     HashHex := HashHex w |}.

(** Line 206: the message whose gas is estimated. *)
Definition estimate_msg (w : World) (key : PrivateKey) (Address : string)
    (intAmount gasFeeCap gasTipCap : Z) : CallMsg :=
  {| msg_From := PubkeyToAddress w key; msg_To := HexToAddress w Address;
     msg_GasFeeCap := gasFeeCap; msg_GasTipCap := gasTipCap;
     msg_Value := intAmount; msg_Data := [] |}.

(** Line 225: the transaction handed to the signer. *)
Definition unsigned_tx (w : World) (Address : string)
    (intAmount nonce gasFeeCap gasTipCap chainID gasLimit : Z) : Transaction :=
  NewTx {| ChainID := chainID; Nonce := nonce; GasFeeCap := gasFeeCap;
           GasTipCap := gasTipCap; Gas := gasLimit;
           To := HexToAddress w Address; Value := intAmount; Data := [] |}.

(** The balance covers the amount and every read of lines 160-222 answers. *)
Record quoted (w : World) (key : PrivateKey) (Address : string)
    (intAmount nonce gasFeeCap gasTipCap chainID gasLimit : Z) : Prop := {
  q_balance : exists b e,
    BalanceAt w (operator w key) = (Some b, e) /\ intAmount <= b;
  q_nonce : PendingNonceAt w (PubkeyToAddress w key) = inl nonce;
  q_fee : SuggestGasPrice w = inl gasFeeCap;
  q_tip : SuggestGasTipCap w = inl gasTipCap;
  q_chain : NetworkID w = inl chainID;
  q_gas : EstimateGas w (estimate_msg w key Address intAmount gasFeeCap gasTipCap)
          = inl gasLimit
}.

(** The calls of a request that gets as far as the broadcast. *)
Definition pipeline_calls (w : World) (req : RequestBody) (key : PrivateKey)
    (intAmount gasFeeCap gasTipCap : Z) (tx : Transaction)
    (signedTx : option Transaction) : list Event :=
  [EvDial ("https://" +:+ Network req);
   EvBalanceAt (operator w key);
   EvPendingNonceAt (PubkeyToAddress w key);
   EvSuggestGasPrice; EvSuggestGasTipCap; EvNetworkID;
   EvEstimateGas (estimate_msg w key (Address req) intAmount gasFeeCap gasTipCap);
   EvSignTx tx; EvSendTransaction signedTx; EvClose].

(** The body of the success response (lines 253-257). *)
Definition success_body (cfg : Config) (tx_id : string) : Body :=
  BodyH (<["success" := JBool true]>
        (<["tx_id" := JString tx_id]>
        (<["explorer_url" := JString (explorerUrlDefault cfg +:+ tx_id)]> ∅))).

(** A stage failure: HTTP 500 with the message of the stage, the ledger
    untouched. *)
Definition failure (accs : gmap string Account) (msg : string)
    (evs : list Event) : Ctl unit * Ctx :=
  (Returned,
   {| accounts := accs;
      written := Some {| status := 500;
                         body := BodyApi {| Success := false; Message := msg |} |};
      trace := evs |}).

(** The amount [(-1)^neg * m * 2^e] times [10^18], truncated towards zero,
    in exact arithmetic. *)
Definition scale_and_truncate (neg : bool) (m : N) (e : Z) : Z :=
  let v := (if neg then -1 else 1) * Z.of_N m * 10 ^ 18 in
  if 0 <=? e then v * 2 ^ e else Z.quot v (2 ^ (- e)).

(** ** Requests served one after another *)

(** [main] routes every [POST /mantle/request] to [handleWithdraw], and the
    package-level [accounts] map (line 28) lives as long as the process.  A
    run is a sequence of requests handled one after another, each against
    the ledger the one before left. *)
Fixpoint run (cfg : Config) (ws : list World) (accs : gmap string Account)
    : list (Ctl unit * Ctx) :=
  match ws with
  | [] => []
  | w :: ws' =>
      let out := serve cfg w accs in
      out :: run cfg ws' (ledger out)
  end.

(** The ledger after a run. *)
Fixpoint ledger_after (cfg : Config) (ws : list World)
    (accs : gmap string Account) : gmap string Account :=
  match ws with
  | [] => accs
  | w :: ws' => ledger_after cfg ws' (ledger (serve cfg w accs))
  end.

(** The address a request names (line 80). *)
Definition requested (w : World) : string := Address (ShouldBindJSON w).1.

(** The record written on line 248. *)
Definition record_of (w : World) : Account :=
  {| Account_Address := requested w; LastWithdrawTime := clock_Now w |}.

(** The request was answered with HTTP 200. *)
Definition paid (out : Ctl unit * Ctx) : Prop :=
  exists r, response out = Some r /\ status r = 200.

(** Both clock readings of a request are monotonic readings, and the one
    taken on line 250 is not before the one taken on line 93. *)
Definition well_clocked (w : World) : Prop :=
  mono_reading (clock_Since w) /\ mono_reading (clock_Now w) /\
  clock_Since w <= clock_Now w.

(** Every record is stored under the address it carries. *)
Definition keyed (accs : gmap string Account) : Prop :=
  forall k rec, accs !! k = Some rec -> Account_Address rec = k.

(** Every recorded time is a monotonic reading. *)
Definition ledger_mono (accs : gmap string Account) : Prop :=
  forall k rec, accs !! k = Some rec -> mono_reading (LastWithdrawTime rec).

Definition is_close (ev : Event) : bool :=
  match ev with EvClose => true | _ => false end.

Definition is_dial (ev : Event) : bool :=
  match ev with EvDial _ => true | _ => false end.

(** ** An environment whose chain can fail *)

Module Faulty.

(** As [Sample.world] for a first request of "1.5" against a funded
    operator, with the answers of the dial, the key, the five reads and the
    broadcast left open. *)
Definition world (bind : RequestBody * option error)
    (dial : option error) (key : PrivateKey + error) (pub : bool)
    (nonce fee tip chain gas : Z + error)
    (send : option Transaction -> Call (option error)) : World :=
  {| ShouldBindJSON := bind;
     IsHexAddress := Sample.common_IsHexAddress;
     clock_Since := Sample.hour 30;
     clock_Now := Sample.hour 30 + 5 * Second;
     ParseFloat := Sample.strconv_ParseFloat;
     DialContext := fun _ => dial;
     HexToECDSA := fun _ => key;
     PublicIsECDSA := fun _ => pub;
     PubkeyToAddress := fun k => 1000 + k;
     AddressString := fun a => pretty a;
     HexToAddress := fun s => if String.eqb s Sample.addr then 42 else 1007;
     BalanceAt := fun _ => (Some (2 * 10 ^ 18), None);
     PendingNonceAt := fun _ => nonce;
     SuggestGasPrice := fee;
     SuggestGasTipCap := tip;
     NetworkID := chain;
     EstimateGas := fun _ => gas;
     SignTx := fun tx _ k => inl {| inner := inner tx; signature := Some k |};
     SendTransaction := send;
     HashHex := fun _ => "0xabc123" |}.

Definition bound : RequestBody * option error := (Sample.req "1.5", None).

Definition send_refused (tx : option Transaction) : Call (option error) :=
  match tx with Some _ => Done (Some "nonce too low") | None => Panics end.

(** The request of [Sample.req], spelled in lower case. *)
Definition addr_lower : string := "0x52908400098527886e0f7030069857d2e4169ee7".

(** A world whose amount parses to the given [float64]. *)
Definition with_amount (f : float64) (since : Time) : World :=
  {| ShouldBindJSON := (Sample.req "x", None);
     IsHexAddress := Sample.common_IsHexAddress;
     clock_Since := since;
     clock_Now := since + 5 * Second;
     ParseFloat := fun _ => (f, None);
     DialContext := fun _ => None;
     HexToECDSA := fun _ => inl 7;
     PublicIsECDSA := fun _ => true;
     PubkeyToAddress := fun k => 1000 + k;
     AddressString := fun a => pretty a;
     HexToAddress := fun s => if String.eqb s Sample.addr then 42 else 1007;
     BalanceAt := fun _ => (Some 5, None);
     PendingNonceAt := fun _ => inl 3;
     SuggestGasPrice := inl 20;
     SuggestGasTipCap := inl 2;
     NetworkID := inl 5003;
     EstimateGas := fun _ => inl 21000;
     SignTx := fun tx _ k => inl {| inner := inner tx; signature := Some k |};
     SendTransaction := Sample.send_ok;
     HashHex := fun _ => "0xabc123" |}.

End Faulty.

(** ** The stages of the pipeline *)

(** The steps of lines 113-246 that can fail with a message of their own. *)
Inductive Stage :=
| Connect
| DecodeKey
| NonceFetch
| GasPrice
| TipCap
| ChainId
| Estimate
| Broadcast.

Definition stage_message (st : Stage) : string :=
  match st with
  | Connect => "Failed to connect to Mantle client"
  | DecodeKey => "Failed to decode private key"
  | NonceFetch => "Failed to get nonce"
  | GasPrice => "Failed to get gas price"
  | TipCap => "Failed to get gas tip cap"
  | ChainId => "Failed to get network ID"
  | Estimate => "Failed to estimate gas"
  | Broadcast => "Deal failed"
  end.

(** The place of an external call in the order of the source. *)
Definition stage_rank (ev : Event) : nat :=
  match ev with
  | EvDial _ => 0
  | EvBalanceAt _ => 1
  | EvPendingNonceAt _ => 2
  | EvSuggestGasPrice => 3
  | EvSuggestGasTipCap => 4
  | EvNetworkID => 5
  | EvEstimateGas _ => 6
  | EvSignTx _ => 7
  | EvSendTransaction _ => 8
  | EvClose => 9
  end.

(** Each number is greater than the one before. *)
Fixpoint increasing (l : list nat) : bool :=
  match l with
  | a :: (b :: _) as t => (a <? b)%nat && increasing t
  | _ => true
  end.

(** ** Rounding *)

(** [q] is [P / 2^s] rounded to the nearest integer, a tie going to the
    even one: [q * 2^s] is within half of [2^s] of [P], and when [P] lies
    exactly half way [q] is even. *)
Definition nearest_even (P s q : N) : Prop :=
  (2 * (q * 2 ^ s) <= 2 * P + 2 ^ s)%N /\
  (2 * P <= 2 * (q * 2 ^ s) + 2 ^ s)%N /\
  ((2 * (P mod 2 ^ s) = 2 ^ s)%N -> N.even q = true).

(** The bits that do not fit a 53-bit mantissa. *)
Definition excess_bits (P : N) : N := (N.size P - 53)%N.

(** [+z] or [-z]. *)
Definition signed (neg : bool) (z : Z) : Z := if neg then - z else z.

(** * Properties *)

(** ** The monad and the stages *)

Lemma bind_Next {A B} (c : M A) (k : A -> M B) s a s' :
  c s = (Next a, s') -> (c ≫= k) s = k a s'.
Proof. intros H. unfold mbind, M_bind, bind. now rewrite H. Qed.

Lemma bind_Returned {A B} (c : M A) (k : A -> M B) s s' :
  c s = (Returned, s') -> (c ≫= k) s = (Returned, s').
Proof. intros H. unfold mbind, M_bind, bind. now rewrite H. Qed.

Lemma bind_Panicked {A B} (c : M A) (k : A -> M B) s s' :
  c s = (Panicked, s') -> (c ≫= k) s = (Panicked, s').
Proof. intros H. unfold mbind, M_bind, bind. now rewrite H. Qed.

Lemma bindRequest_ok w req s :
  ShouldBindJSON w = (req, None) -> bindRequest w s = (Next req, s).
Proof. intros H. unfold bindRequest. now rewrite H. Qed.

Lemma checkAddress_ok w a s :
  IsHexAddress w a = true -> checkAddress w a s = (Next tt, s).
Proof. intros H. unfold checkAddress. now rewrite H. Qed.

Lemma checkAddress_reject w a s :
  IsHexAddress w a = false ->
  checkAddress w a s =
    (Returned,
     {| accounts := accounts s;
        written := Some {| status := 400;
                           body := BodyApi {| Success := false;
                             Message := "Please check and enter a valid wallet address." |} |};
        trace := trace s |}).
Proof. intros H. unfold checkAddress. now rewrite H. Qed.

(** C7: a request whose address is not a valid hex address is answered with
    HTTP 400 and success false, and the handler returns before the chain
    endpoint is dialled: no external call is made and the ledger is as it
    was. *)
Theorem invalid_address_rejected_before_dial cfg w accs req :
  ShouldBindJSON w = (req, None) ->
  IsHexAddress w (Address req) = false ->
  serve cfg w accs =
    (Returned,
     {| accounts := accs;
        written := Some {| status := 400;
                           body := BodyApi {| Success := false;
                             Message := "Please check and enter a valid wallet address." |} |};
        trace := [] |}).
Proof.
  intros Hb Ha. unfold serve, handleWithdraw.
  rewrite (bind_Next _ _ _ _ _ (bindRequest_ok _ _ _ Hb)).
  apply bind_Returned. now rewrite (checkAddress_reject _ _ _ Ha).
Qed.

Lemma invalid_address_rejected_before_dial_witness :
  serve Sample.cfg24
    (Sample.world {| Network := "rpc.sepolia.mantle.xyz"; Address := "0x1234";
                     Amount := "1" |} 0 (Some 0, None) true Sample.send_ok) ∅ =
    (Returned,
     {| accounts := ∅;
        written := Some {| status := 400;
                           body := BodyApi {| Success := false;
                             Message := "Please check and enter a valid wallet address." |} |};
        trace := [] |}).
Proof.
  apply (invalid_address_rejected_before_dial Sample.cfg24
           (Sample.world {| Network := "rpc.sepolia.mantle.xyz";
                            Address := "0x1234"; Amount := "1" |}
              0 (Some 0, None) true Sample.send_ok)
           ∅ {| Network := "rpc.sepolia.mantle.xyz"; Address := "0x1234";
                Amount := "1" |}).
  - reflexivity.
  - vm_compute; reflexivity.
Defined.

(** ** The cooldown guard *)

Ltac exec :=
  unfold proceed, normalizeAmount, disburse, transfer, or_fail, fail,
    when, from_option, call, c_JSON, set_account, defer, return_, panic,
    get_accounts, mret, mbind, M_ret, M_bind, ret, bind in *;
  cbn in *.

Ltac cases := repeat (case_match; simplify_eq/=; try done).

Lemma wrap64_id z : int64_range z -> wrap64 z = z.
Proof.
  unfold int64_range, wrap64. intros H.
  rewrite Z.mod_small by lia. lia.
Qed.

Lemma subMono_exact t u :
  mono_reading t -> mono_reading u -> subMono t u = t - u.
Proof.
  unfold mono_reading, subMono. intros Ht Hu.
  rewrite wrap64_id by (unfold int64_range; lia). cbn zeta.
  destruct (Z.ltb_spec (t - u) 0), (Z.ltb_spec u t), (Z.ltb_spec 0 (t - u)),
    (Z.ltb_spec t u); cbn; lia.
Qed.

(** For intervals up to 2562047 hours the product of line 92 does not wrap. *)
Lemma cooldown_hours cfg :
  0 <= integerDefault cfg <= 2562047 ->
  cooldown cfg = integerDefault cfg * 3600 * 1000000000.
Proof.
  intros H. unfold cooldown. rewrite wrap64_id.
  - unfold Hour, Second, Nanosecond. lia.
  - unfold int64_range, Hour, Second, Nanosecond. lia.
Qed.

Lemma checkCooldown_fresh cfg w a s :
  accounts s !! a = None -> checkCooldown cfg w a s = (Next tt, s).
Proof. intros H. unfold checkCooldown. exec. now rewrite H. Qed.

Lemma checkCooldown_recorded cfg w a s rec :
  accounts s !! a = Some rec ->
  checkCooldown cfg w a s =
    if subMono (clock_Since w) (LastWithdrawTime rec) <? cooldown cfg
    then (Returned,
          {| accounts := accounts s;
             written := Some {| status := 403;
                                body := BodyApi {| Success := false;
                                  Message := "You can only withdraw once every 24 hours." |} |};
             trace := trace s |})
    else (Next tt, s).
Proof. intros H. unfold checkCooldown. exec. rewrite H. now case_match. Qed.

(** Past the guard the handler never answers 403. *)
Lemma proceed_no_403 cfg w req accs r :
  written (proceed cfg w req (ctx0 accs)).2 = Some r -> status r <> 403.
Proof.
  unfold ctx0, StatusOK, StatusBadRequest, StatusInternalServerError.
  exec. intros H. cases.
Qed.

Lemma proceed_not_rejection cfg w req accs :
  proceed cfg w req (ctx0 accs) <> cooldown_rejection accs.
Proof.
  intros H.
  assert (Hw : written (proceed cfg w req (ctx0 accs)).2 =
               written (cooldown_rejection accs).2) by now rewrite H.
  now apply proceed_no_403 in Hw.
Qed.

Lemma serve_guard cfg w accs req :
  ShouldBindJSON w = (req, None) ->
  IsHexAddress w (Address req) = true ->
  serve cfg w accs =
    (checkCooldown cfg w (Address req) ≫= fun _ => proceed cfg w req) (ctx0 accs).
Proof.
  intros Hb Ha. unfold serve, handleWithdraw. fold (ctx0 accs).
  rewrite (bind_Next _ _ _ _ _ (bindRequest_ok _ _ _ Hb)).
  now rewrite (bind_Next _ _ _ _ _ (checkAddress_ok _ _ _ Ha)).
Qed.

(** C1: cooldown eligibility.  An address without a ledger record is never
    cooldown-rejected: the request goes on to amount normalization.  For an
    address recorded at [t0], with [d] the configured cooldown duration and
    [t] the time of the request, the request is cooldown-rejected exactly
    when [t - t0 < d] and goes on exactly when [t - t0 >= d]. *)
Theorem cooldown_eligibility cfg w accs req :
  ShouldBindJSON w = (req, None) ->
  IsHexAddress w (Address req) = true ->
  mono_reading (clock_Since w) ->
  (accs !! Address req = None ->
     serve cfg w accs = proceed cfg w req (ctx0 accs) /\
     serve cfg w accs <> cooldown_rejection accs) /\
  (forall rec,
     accs !! Address req = Some rec ->
     mono_reading (LastWithdrawTime rec) ->
     let t := clock_Since w in
     let t0 := LastWithdrawTime rec in
     let d := cooldown cfg in
     (serve cfg w accs = cooldown_rejection accs <-> t - t0 < d) /\
     (serve cfg w accs = proceed cfg w req (ctx0 accs) <-> t - t0 >= d)).
Proof.
  intros Hb Ha Ht. rewrite (serve_guard _ _ _ _ Hb Ha). split.
  - intros Hnone.
    rewrite (bind_Next _ _ _ _ _ (checkCooldown_fresh cfg w _ (ctx0 accs) Hnone)).
    split; [reflexivity | apply proceed_not_rejection].
  - intros rec Hrec Ht0 t t0 d. subst t t0 d.
    pose proof (checkCooldown_recorded cfg w _ (ctx0 accs) rec Hrec) as Hc.
    rewrite (subMono_exact _ _ Ht Ht0) in Hc.
    destruct (Z.ltb_spec (clock_Since w - LastWithdrawTime rec) (cooldown cfg))
      as [Hlt | Hge].
    + rewrite (bind_Returned _ _ _ _ Hc). fold (cooldown_rejection accs).
      split; split; try lia; try reflexivity.
      intros Heq. symmetry in Heq. now apply proceed_not_rejection in Heq.
    + rewrite (bind_Next _ _ _ _ _ Hc).
      split; split; try lia; try reflexivity.
      intros Heq. now apply proceed_not_rejection in Heq.
Qed.

Lemma cooldown_eligibility_witness :
  serve Sample.cfg24
    (Sample.world (Sample.req "1.5") (Sample.hour 30) (Some 0, None) true
       Sample.send_ok)
    (Sample.recorded (Sample.hour 7)) =
  cooldown_rejection (Sample.recorded (Sample.hour 7)).
Proof.
  destruct (cooldown_eligibility Sample.cfg24
              (Sample.world (Sample.req "1.5") (Sample.hour 30) (Some 0, None)
                 true Sample.send_ok)
              (Sample.recorded (Sample.hour 7)) (Sample.req "1.5"))
    as [_ H].
  - reflexivity.
  - vm_compute; reflexivity.
  - vm_compute; split; [discriminate | reflexivity].
  - apply (H {| Account_Address := Sample.addr;
                LastWithdrawTime := Sample.hour 7 |}).
    + vm_compute; reflexivity.
    + vm_compute; split; [discriminate | reflexivity].
    + vm_compute; reflexivity.
Defined.

(** ** Requests that reach the pipeline *)

Lemma checkCooldown_pass cfg w a accs :
  not_in_cooldown cfg w accs a ->
  checkCooldown cfg w a (ctx0 accs) = (Next tt, ctx0 accs).
Proof.
  unfold not_in_cooldown. intros H.
  destruct (accs !! a) as [rec|] eqn:E.
  - rewrite (checkCooldown_recorded cfg w a (ctx0 accs) rec E).
    destruct (Z.ltb_spec (subMono (clock_Since w) (LastWithdrawTime rec))
                (cooldown cfg)); [lia | reflexivity].
  - now apply (checkCooldown_fresh cfg w a (ctx0 accs)).
Qed.

Lemma serve_accepted cfg w accs req a :
  accepted cfg w accs req a ->
  serve cfg w accs = disburse cfg w req a (ctx0 accs).
Proof.
  intros [Hb Ha Hc (f & Hp & Hi)].
  rewrite (serve_guard _ _ _ _ Hb Ha).
  rewrite (bind_Next _ _ _ _ _ (checkCooldown_pass _ _ _ _ Hc)).
  unfold proceed. apply bind_Next.
  unfold normalizeAmount. rewrite Hp, Hi. reflexivity.
Qed.

Lemma Cmp_lt x y : (Cmp x y =? -1) = true <-> x < y.
Proof.
  unfold Cmp, Z.lt. destruct (x ?= y); cbn; split; congruence.
Qed.

Lemma Cmp_ge x y : (Cmp x y =? -1) = false <-> y <= x.
Proof.
  unfold Cmp, Z.le. rewrite (Z.compare_antisym x y).
  destruct (x ?= y); cbn; split; congruence.
Qed.

(** C2: when the operator balance is strictly less than the requested
    integer amount, the handler answers HTTP 400 with the message
    "Insufficient balance"; the only calls made are the dial, the balance
    read and the close, so no nonce is fetched, no gas is estimated and no
    transaction is signed or broadcast. *)
Theorem insufficient_balance_rejected cfg w accs req intAmount key balance err :
  accepted cfg w accs req intAmount ->
  connected cfg w req key ->
  BalanceAt w (operator w key) = (Some balance, err) ->
  balance < intAmount ->
  serve cfg w accs =
    (Returned,
     {| accounts := accs;
        written := Some {| status := 400;
                           body := BodyApi {| Success := false;
                                              Message := "Insufficient balance" |} |};
        trace := [EvDial ("https://" +:+ Network req);
                  EvBalanceAt (operator w key); EvClose] |}).
Proof.
  intros Hacc [Hd Hk Hp] Hb Hlt.
  rewrite (serve_accepted _ _ _ _ _ Hacc).
  apply Cmp_lt in Hlt. unfold operator in *.
  exec. rewrite Hd. cbn. rewrite Hk. cbn. rewrite Hp. cbn.
  rewrite Hb. cbn. rewrite Hlt. reflexivity.
Qed.

Lemma insufficient_balance_rejected_witness :
  serve Sample.cfg24
    (Sample.world (Sample.req "1.5") (Sample.hour 30) (Some (10 ^ 18), None)
       true Sample.send_ok) ∅ =
    (Returned,
     {| accounts := ∅;
        written := Some {| status := 400;
                           body := BodyApi {| Success := false;
                                              Message := "Insufficient balance" |} |};
        trace := [EvDial "https://rpc.sepolia.mantle.xyz"; EvBalanceAt 1007;
                  EvClose] |}).
Proof.
  apply (insufficient_balance_rejected Sample.cfg24
           (Sample.world (Sample.req "1.5") (Sample.hour 30)
              (Some (10 ^ 18), None) true Sample.send_ok)
           ∅ (Sample.req "1.5") 1500000000000000000 7 (10 ^ 18) None).
  - split.
    + reflexivity.
    + vm_compute; reflexivity.
    + exact I.
    + exists (Finite false 3 (-1)). split; vm_compute; reflexivity.
  - split; reflexivity.
  - reflexivity.
  - vm_compute; reflexivity.
Defined.

(** ** Amount parsing *)

(** Rewrite with the answers of the world that the hypotheses fix. *)
Ltac feed :=
  repeat (match goal with
          | H : ?l = _ |- context [?l] => rewrite H
          end; cbn).



(** ** The balance read *)

(** The handler reads only the balance pointer of the answer. *)
Lemma transfer_ignores_balance_error cfg w e' a i s :
  transfer cfg (with_BalanceAt w (fun x => ((BalanceAt w x).1, e' x))) a i s =
  transfer cfg w a i s.
Proof.
  unfold transfer. exec.
  destruct (HexToECDSA w (privateKeyDefault cfg)) as [key|]; cbn; [|done].
  destruct (PublicIsECDSA w key); cbn; [|done].
  destruct (BalanceAt w _) as [bal err]. reflexivity.
Qed.

Lemma serve_ignores_balance_error cfg w e' accs :
  serve cfg (with_BalanceAt w (fun x => ((BalanceAt w x).1, e' x))) accs =
  serve cfg w accs.
Proof.
  assert (Htail : forall req,
    proceed cfg (with_BalanceAt w (fun x => ((BalanceAt w x).1, e' x))) req
      (ctx0 accs) = proceed cfg w req (ctx0 accs)).
  { intros req. unfold proceed, normalizeAmount, disburse, defer.
    unfold mbind, M_bind, bind. cbn.
    destruct (ParseFloat w (Amount req)) as [f [e|]]; cbn; [done|].
    destruct (from_option (toInt f) (ctx0 accs)) as [[i| |] s]; cbn; try done.
    destruct (DialContext w _); cbn; [done|].
    now rewrite transfer_ignores_balance_error. }
  unfold serve, handleWithdraw. fold (ctx0 accs).
  unfold bindRequest, checkAddress, checkCooldown, get_accounts.
  unfold mbind, M_bind, bind. cbn.
  destruct (ShouldBindJSON w) as [req [e|]]; cbn; [done|].
  destruct (IsHexAddress w (Address req)); cbn; [|done].
  destruct (accs !! Address req) as [rec|]; cbn.
  - destruct (_ <? _); cbn; [done|]. apply Htail.
  - apply Htail.
Qed.

(** C10: the error of the balance read is discarded.  When the read fails
    the handler behaves exactly as if it had reported no error; it never
    answers with the connectivity failure; and it compares whatever balance
    pointer came back: a nil pointer makes the comparison panic, a balance
    below the amount is reported as insufficient, and any other balance lets
    the request go on to the nonce fetch. *)
Theorem balance_read_error_discarded cfg w accs req intAmount key bal err :
  accepted cfg w accs req intAmount ->
  connected cfg w req key ->
  BalanceAt w (operator w key) = (bal, Some err) ->
  let out := serve cfg w accs in
  let url := "https://" +:+ Network req in
  serve cfg (with_BalanceAt w (fun x => ((BalanceAt w x).1, None))) accs = out /\
  (forall r, response out = Some r ->
     body r <> BodyApi {| Success := false;
                          Message := "Failed to connect to Mantle client" |}) /\
  match bal with
  | None =>
      out = (Panicked,
             {| accounts := accs; written := None;
                trace := [EvDial url; EvBalanceAt (operator w key); EvClose] |})
  | Some b =>
      if b <? intAmount
      then response out =
             Some {| status := 400;
                     body := BodyApi {| Success := false;
                                        Message := "Insufficient balance" |} |}
      else exists rest,
             calls out = ([EvDial url; EvBalanceAt (operator w key);
                           EvPendingNonceAt (PubkeyToAddress w key)] ++ rest)%list
  end.
Proof.
  intros Hacc [Hd Hk Hp] Hb out url. subst out url.
  split; [apply serve_ignores_balance_error|].
  rewrite (serve_accepted _ _ _ _ _ Hacc).
  unfold operator, response, calls, ctx0 in *. split.
  - exec. feed. intros r. cases; intros [= <-]; cbn; congruence.
  - destruct bal as [b|].
    + destruct (Z.ltb_spec b intAmount) as [Hlt|Hge].
      * apply Cmp_lt in Hlt. exec. feed. reflexivity.
      * apply Cmp_ge in Hge. exec. feed. cases; eauto.
    + exec. feed. reflexivity.
Qed.

Lemma balance_read_error_discarded_witness :
  serve Sample.cfg24
    (Sample.world (Sample.req "1.5") (Sample.hour 30)
       (None, Some "connection reset") true Sample.send_ok) ∅ =
  (Panicked,
   {| accounts := ∅; written := None;
      trace := [EvDial "https://rpc.sepolia.mantle.xyz"; EvBalanceAt 1007;
                EvClose] |}).
Proof.
  destruct (balance_read_error_discarded Sample.cfg24
              (Sample.world (Sample.req "1.5") (Sample.hour 30)
                 (None, Some "connection reset") true Sample.send_ok)
              ∅ (Sample.req "1.5") 1500000000000000000 7 None
              "connection reset")
    as (_ & _ & H).
  - split.
    + reflexivity.
    + vm_compute; reflexivity.
    + exact I.
    + exists (Finite false 3 (-1)). split; vm_compute; reflexivity.
  - split; reflexivity.
  - reflexivity.
  - exact H.
Defined.

(** ** The pipeline *)

Ltac open_pipeline Hacc Hcon :=
  rewrite (serve_accepted _ _ _ _ _ Hacc);
  destruct Hcon as [?Hd ?Hk ?Hp];
  unfold operator, estimate_msg, unsigned_tx, pipeline_calls, success_body,
    ctx0 in *.

Ltac open_quote Hq :=
  destruct Hq as [(?b & ?e & ?Hb & ?Hle) ?Hn ?Hf ?Ht ?Hc ?Hg];
  match goal with H : _ <= _ |- _ => apply Cmp_ge in H end;
  unfold operator, estimate_msg in *.

(** C9: a successful disbursement is answered with HTTP 200 and a body whose
    [success] is true, whose [tx_id] is the hex string of the hash of the
    transaction that was broadcast, and whose [explorer_url] is the
    configured explorer base URL followed by that same [tx_id]. *)
Theorem successful_disbursement_response
    cfg w accs req intAmount key nonce fee tip chain gas signedTx :
  accepted cfg w accs req intAmount ->
  connected cfg w req key ->
  quoted w key (Address req) intAmount nonce fee tip chain gas ->
  let tx := unsigned_tx w (Address req) intAmount nonce fee tip chain gas in
  SignTx w tx chain key = inl signedTx ->
  SendTransaction w (Some signedTx) = Done None ->
  let tx_id := HashHex w signedTx in
  serve cfg w accs =
    (Next tt,
     {| accounts := <[Address req := {| Account_Address := Address req;
                                        LastWithdrawTime := clock_Now w |}]> accs;
        written :=
          Some {| status := 200;
                  body := BodyH
                    (<["success" := JBool true]>
                    (<["tx_id" := JString tx_id]>
                    (<["explorer_url" := JString (explorerUrlDefault cfg +:+ tx_id)]>
                     ∅))) |};
        trace := pipeline_calls w req key intAmount fee tip tx (Some signedTx) |}).
Proof.
  intros Hacc Hcon Hq tx Hs Hsend tx_id. subst tx tx_id.
  open_pipeline Hacc Hcon. open_quote Hq.
  exec. feed. reflexivity.
Qed.

Lemma initConfig_loads v cfg :
  initConfig v = inl cfg ->
  integerDefault cfg = GetInt v "interval" /\
  privateKeyDefault cfg = GetString v "privateKey" /\
  explorerUrlDefault cfg = GetString v "sepolia.explorerUrl".
Proof.
  unfold initConfig. destruct (ReadInConfig v); [discriminate|].
  intros [= <-]. cbn. auto.
Qed.

Lemma Sample_cfg24_loaded : Sample.cfg 24 = inl Sample.cfg24.
Proof. reflexivity. Qed.

Lemma Sample_cfg12_loaded : Sample.cfg 12 = inl Sample.cfg12.
Proof. reflexivity. Qed.

Lemma Sample_accepted amount intAmount since bal sign send interval :
  (exists f, Sample.strconv_ParseFloat amount = (f, None) /\ toInt f = Some intAmount) ->
  accepted {| integerDefault := interval; privateKeyDefault := "4c0883a6";
              portDefault := ":6010";
              explorerUrlDefault := "https://explorer.sepolia.mantle.xyz/tx/" |}
    (Sample.world (Sample.req amount) since bal sign send) ∅
    (Sample.req amount) intAmount.
Proof.
  intros H. split; [reflexivity | vm_compute; reflexivity | exact I | exact H].
Qed.

Lemma Sample_amount_1_5 :
  exists f, Sample.strconv_ParseFloat "1.5" = (f, None) /\
            toInt f = Some 1500000000000000000.
Proof. exists (Finite false 3 (-1)). split; vm_compute; reflexivity. Qed.

Lemma Sample_quoted since b sign send :
  1500000000000000000 <= b ->
  quoted (Sample.world (Sample.req "1.5") since (Some b, None) sign send) 7
    Sample.addr 1500000000000000000 3 20 2 5003 21000.
Proof.
  intros H. split; try reflexivity. exists b, None. split; [reflexivity | exact H].
Qed.

Lemma successful_disbursement_response_witness :
  response
    (serve Sample.cfg24
       (Sample.world (Sample.req "1.5") (Sample.hour 30)
          (Some (2 * 10 ^ 18), None) true Sample.send_ok) ∅) =
  Some {| status := 200;
          body := BodyH
            (<["success" := JBool true]>
            (<["tx_id" := JString "0xabc123"]>
            (<["explorer_url" :=
                 JString "https://explorer.sepolia.mantle.xyz/tx/0xabc123"]> ∅))) |}.
Proof.
  rewrite (successful_disbursement_response Sample.cfg24
             (Sample.world (Sample.req "1.5") (Sample.hour 30)
                (Some (2 * 10 ^ 18), None) true Sample.send_ok)
             ∅ (Sample.req "1.5") 1500000000000000000 7 3 20 2 5003 21000
             {| inner := {| ChainID := 5003; Nonce := 3; GasFeeCap := 20;
                            GasTipCap := 2; Gas := 21000; To := 42;
                            Value := 1500000000000000000; Data := [] |};
                signature := Some 7 |}).
  - reflexivity.
  - apply Sample_accepted, Sample_amount_1_5.
  - split; reflexivity.
  - apply Sample_quoted. vm_compute. discriminate.
  - reflexivity.
  - reflexivity.
Defined.

Ltac tidy_guards :=
  repeat match goal with
         | H : negb _ = false |- _ => apply negb_false_iff in H
         | H : (Cmp _ _ =? -1) = false |- _ => apply Cmp_ge in H
         | H : (_ <? _) = false |- _ => apply Z.ltb_ge in H
         end.

Ltac passed_guard :=
  unfold not_in_cooldown;
  match goal with H : _ !! _ = _ |- _ => rewrite H end; done.

(** X26: every response with status 200 is the success response of a
    transaction that was signed and then broadcast: the request was
    accepted, every read answered, [SignTx] returned the signed transaction
    for the transaction built from those answers, [SendTransaction] was
    called with it after the signer and returned no error, and the body
    carries the hash of that signed transaction. *)
Lemma status_200_is_success cfg w accs r :
  response (serve cfg w accs) = Some r ->
  status r = 200 ->
  exists req intAmount key nonce fee tip chain gas signedTx,
    accepted cfg w accs req intAmount /\
    connected cfg w req key /\
    quoted w key (Address req) intAmount nonce fee tip chain gas /\
    SignTx w (unsigned_tx w (Address req) intAmount nonce fee tip chain gas)
      chain key = inl signedTx /\
    SendTransaction w (Some signedTx) = Done None /\
    body r = success_body cfg (HashHex w signedTx) /\
    calls (serve cfg w accs) =
      pipeline_calls w req key intAmount fee tip
        (unsigned_tx w (Address req) intAmount nonce fee tip chain gas)
        (Some signedTx).
Proof.
  unfold response, calls, serve, handleWithdraw, bindRequest, checkAddress,
    checkCooldown, success_body.
  unfold StatusOK, StatusBadRequest, StatusForbidden, StatusInternalServerError.
  exec. destruct (ShouldBindJSON w) as [req [e|]] eqn:Hb; cbn.
  { intros [= <-]. done. }
  cases; intros [= <-]; cbn; try done.
  all: intros _; exists req; eexists _, _, _, _, _, _, _, _; tidy_guards.
  all: split_and!;
    [ split; [eassumption | eassumption | passed_guard | eauto]
    | split; eassumption
    | split; [unfold operator; eauto | eassumption ..]
    | eassumption
    | eassumption
    | reflexivity
    | reflexivity ].
Qed.

(** *** The stages that check their error *)

(** X2: when the dial fails the handler answers HTTP 500 "Failed to connect
    to Mantle client"; the dial is the only external call (there is no
    connection to close) and the ledger is as it was. *)
Lemma connect_failure cfg w accs req intAmount e :
  accepted cfg w accs req intAmount ->
  DialContext w ("https://" +:+ Network req) = Some e ->
  serve cfg w accs =
    failure accs "Failed to connect to Mantle client"
      [EvDial ("https://" +:+ Network req)].
Proof.
  intros Hacc Hd. rewrite (serve_accepted _ _ _ _ _ Hacc).
  unfold ctx0, failure. exec. feed. reflexivity.
Qed.

Lemma key_failure cfg w accs req intAmount e :
  accepted cfg w accs req intAmount ->
  DialContext w ("https://" +:+ Network req) = None ->
  HexToECDSA w (privateKeyDefault cfg) = inr e ->
  serve cfg w accs =
    failure accs "Failed to decode private key"
      [EvDial ("https://" +:+ Network req); EvClose].
Proof.
  intros Hacc Hd Hk. rewrite (serve_accepted _ _ _ _ _ Hacc).
  unfold ctx0, failure. exec. feed. reflexivity.
Qed.

Section Stages.
Context (cfg : Config) (w : World) (accs : gmap string Account)
  (req : RequestBody) (intAmount : Z) (key : PrivateKey) (b : Z)
  (berr : option error).
Hypothesis Hacc : accepted cfg w accs req intAmount.
Hypothesis Hcon : connected cfg w req key.
Hypothesis Hbal : BalanceAt w (operator w key) = (Some b, berr).
Hypothesis Hle : intAmount <= b.

Ltac stage :=
  apply Cmp_ge in Hle;
  open_pipeline Hacc Hcon; unfold failure; exec; feed; reflexivity.

(** X4: when the nonce fetch fails the handler answers HTTP 500 "Failed to
    get nonce"; no fee is asked for, nothing is signed or sent, the
    connection is closed and the ledger is as it was. *)
Lemma nonce_failure e :
  PendingNonceAt w (PubkeyToAddress w key) = inr e ->
  serve cfg w accs =
    failure accs "Failed to get nonce"
      [EvDial ("https://" +:+ Network req); EvBalanceAt (operator w key);
       EvPendingNonceAt (PubkeyToAddress w key); EvClose].
Proof using All. intros Hn. stage. Qed.

(** X5: when the gas price fetch fails the handler answers HTTP 500 "Failed
    to get gas price" and stops there; the connection is closed and the
    ledger is as it was. *)
Lemma gas_price_failure nonce e :
  PendingNonceAt w (PubkeyToAddress w key) = inl nonce ->
  SuggestGasPrice w = inr e ->
  serve cfg w accs =
    failure accs "Failed to get gas price"
      [EvDial ("https://" +:+ Network req); EvBalanceAt (operator w key);
       EvPendingNonceAt (PubkeyToAddress w key);
       EvSuggestGasPrice; EvClose].
Proof using All. intros Hn Hf. stage. Qed.

(** X6: when the tip cap fetch fails the handler answers HTTP 500 "Failed
    to get gas tip cap" and stops there; the connection is closed and the
    ledger is as it was. *)
Lemma tip_cap_failure nonce fee e :
  PendingNonceAt w (PubkeyToAddress w key) = inl nonce ->
  SuggestGasPrice w = inl fee ->
  SuggestGasTipCap w = inr e ->
  serve cfg w accs =
    failure accs "Failed to get gas tip cap"
      [EvDial ("https://" +:+ Network req); EvBalanceAt (operator w key);
       EvPendingNonceAt (PubkeyToAddress w key);
       EvSuggestGasPrice; EvSuggestGasTipCap; EvClose].
Proof using All. intros Hn Hf Ht. stage. Qed.

(** X7: when the network id fetch fails the handler answers HTTP 500
    "Failed to get network ID" and stops there; no gas is estimated, the
    connection is closed and the ledger is as it was. *)
Lemma chain_id_failure nonce fee tip e :
  PendingNonceAt w (PubkeyToAddress w key) = inl nonce ->
  SuggestGasPrice w = inl fee ->
  SuggestGasTipCap w = inl tip ->
  NetworkID w = inr e ->
  serve cfg w accs =
    failure accs "Failed to get network ID"
      [EvDial ("https://" +:+ Network req); EvBalanceAt (operator w key);
       EvPendingNonceAt (PubkeyToAddress w key);
       EvSuggestGasPrice; EvSuggestGasTipCap; EvNetworkID; EvClose].
Proof using All. intros Hn Hf Ht Hc. stage. Qed.

(** X8: when gas estimation fails (for the message from the operator to
    the requested address with the fetched fees and the integer amount) the
    handler answers HTTP 500 "Failed to estimate gas"; nothing is signed or
    sent, the connection is closed and the ledger is as it was. *)
Lemma estimate_failure nonce fee tip chain e :
  PendingNonceAt w (PubkeyToAddress w key) = inl nonce ->
  SuggestGasPrice w = inl fee ->
  SuggestGasTipCap w = inl tip ->
  NetworkID w = inl chain ->
  EstimateGas w (estimate_msg w key (Address req) intAmount fee tip) = inr e ->
  serve cfg w accs =
    failure accs "Failed to estimate gas"
      [EvDial ("https://" +:+ Network req); EvBalanceAt (operator w key);
       EvPendingNonceAt (PubkeyToAddress w key);
       EvSuggestGasPrice; EvSuggestGasTipCap; EvNetworkID;
       EvEstimateGas (estimate_msg w key (Address req) intAmount fee tip);
       EvClose].
Proof using All. intros Hn Hf Ht Hc Hg. stage. Qed.
End Stages.

(** X9: when the broadcast of the signed transaction returns an error the
    handler answers HTTP 500 "Deal failed"; the ledger is as it was, so the
    address is not put in cooldown. *)
Lemma broadcast_failure
    cfg w accs req intAmount key nonce fee tip chain gas signedTx e :
  accepted cfg w accs req intAmount ->
  connected cfg w req key ->
  quoted w key (Address req) intAmount nonce fee tip chain gas ->
  let tx := unsigned_tx w (Address req) intAmount nonce fee tip chain gas in
  SignTx w tx chain key = inl signedTx ->
  SendTransaction w (Some signedTx) = Done (Some e) ->
  serve cfg w accs =
    failure accs "Deal failed"
      (pipeline_calls w req key intAmount fee tip tx (Some signedTx)).
Proof.
  intros Hacc Hcon Hq tx Hs Hsend. subst tx.
  open_pipeline Hacc Hcon. open_quote Hq.
  unfold failure. exec. feed. reflexivity.
Qed.

(** *** The stage that does not *)



(** *** All the stages together *)

Lemma stage_message_inj s1 s2 :
  stage_message s1 = stage_message s2 -> s1 = s2.
Proof. destruct s1, s2; cbn; intros H; try reflexivity; discriminate H. Qed.

(** On every path the external calls follow the order of the source, none
    of them twice. *)
Lemma calls_in_order cfg w accs :
  increasing (stage_rank <$> calls (serve cfg w accs)) = true.
Proof.
  unfold calls, serve, handleWithdraw, bindRequest, checkAddress,
    checkCooldown.
  exec. destruct (ShouldBindJSON w) as [req [e|]]; cbn; [done|].
  cases.
Qed.

(** C4: the pipeline is a strict sequence without retries: on every path
    the external calls follow the order dial, balance, nonce, gas price,
    tip cap, chain id, estimation, signing, broadcast, close, each at most
    once.  The failure of a step ends the request with HTTP 500 and the
    message of that step, distinct from the message of every other step;
    no later step is run (the connection, once open, is closed) and the
    ledger is untouched.  A signing failure ends with the broadcast
    failure: it is reported when the broadcast that follows fails. *)
Theorem pipeline_step_failures cfg w accs req intAmount :
  accepted cfg w accs req intAmount ->
  let url := "https://" +:+ Network req in
  let out := serve cfg w accs in
  increasing (stage_rank <$> calls out) = true /\
  (forall s1 s2, stage_message s1 = stage_message s2 -> s1 = s2) /\
  (forall e, DialContext w url = Some e ->
     out = failure accs (stage_message Connect) [EvDial url]) /\
  (forall key b berr,
     connected cfg w req key ->
     BalanceAt w (operator w key) = (Some b, berr) ->
     intAmount <= b ->
     let from := PubkeyToAddress w key in
     let op := operator w key in
     (forall e, PendingNonceAt w from = inr e ->
        out = failure accs (stage_message NonceFetch)
                [EvDial url; EvBalanceAt op; EvPendingNonceAt from; EvClose]) /\
     (forall nonce, PendingNonceAt w from = inl nonce ->
      (forall e, SuggestGasPrice w = inr e ->
         out = failure accs (stage_message GasPrice)
                 [EvDial url; EvBalanceAt op; EvPendingNonceAt from;
                  EvSuggestGasPrice; EvClose]) /\
      (forall fee, SuggestGasPrice w = inl fee ->
       (forall e, SuggestGasTipCap w = inr e ->
          out = failure accs (stage_message TipCap)
                  [EvDial url; EvBalanceAt op; EvPendingNonceAt from;
                   EvSuggestGasPrice; EvSuggestGasTipCap; EvClose]) /\
       (forall tip, SuggestGasTipCap w = inl tip ->
        (forall e, NetworkID w = inr e ->
           out = failure accs (stage_message ChainId)
                   [EvDial url; EvBalanceAt op; EvPendingNonceAt from;
                    EvSuggestGasPrice; EvSuggestGasTipCap; EvNetworkID;
                    EvClose]) /\
        (forall chain, NetworkID w = inl chain ->
         let msg := estimate_msg w key (Address req) intAmount fee tip in
         (forall e, EstimateGas w msg = inr e ->
            out = failure accs (stage_message Estimate)
                    [EvDial url; EvBalanceAt op; EvPendingNonceAt from;
                     EvSuggestGasPrice; EvSuggestGasTipCap; EvNetworkID;
                     EvEstimateGas msg; EvClose]) /\
         (forall gas, EstimateGas w msg = inl gas ->
          let tx := unsigned_tx w (Address req) intAmount nonce fee tip
                      chain gas in
          (forall signedTx e,
             SignTx w tx chain key = inl signedTx ->
             SendTransaction w (Some signedTx) = Done (Some e) ->
             out = failure accs (stage_message Broadcast)
                     (pipeline_calls w req key intAmount fee tip tx
                        (Some signedTx))) /\
          (forall e e',
             SignTx w tx chain key = inr e ->
             SendTransaction w None = Done (Some e') ->
             out = failure accs (stage_message Broadcast)
                     (pipeline_calls w req key intAmount fee tip tx
                        None)))))))).
Proof.
  intros Hacc url out. subst url out.
  split; [apply calls_in_order|].
  split; [apply stage_message_inj|].
  rewrite (serve_accepted _ _ _ _ _ Hacc).
  unfold failure, stage_message, ctx0. split.
  { intros e Hd. exec. feed. reflexivity. }
  intros key b berr [Hd Hk Hp] Hb Hle.
  apply Cmp_ge in Hle.
  unfold operator, estimate_msg, unsigned_tx, pipeline_calls in *.
  split; [intros e Hn; exec; feed; reflexivity|]. intros nonce Hn.
  split; [intros e Hf; exec; feed; reflexivity|]. intros fee Hf.
  split; [intros e Ht; exec; feed; reflexivity|]. intros tip Ht.
  split; [intros e Hc; exec; feed; reflexivity|]. intros chain Hc.
  split; [intros e Hg; exec; feed; reflexivity|]. intros gas Hg.
  split.
  - intros signedTx e Hs Hsend. exec. feed. reflexivity.
  - intros e e' Hs Hsend. exec. feed. reflexivity.
Qed.

Lemma pipeline_step_failures_witness :
  serve Sample.cfg24
    (Faulty.world Faulty.bound None (inl 7) true
       (inl 3) (inl 20) (inr "timeout") (inl 5003) (inl 21000)
       Sample.send_ok) ∅ =
  failure ∅ "Failed to get gas tip cap"
    [EvDial "https://rpc.sepolia.mantle.xyz"; EvBalanceAt 1007;
     EvPendingNonceAt 1007; EvSuggestGasPrice; EvSuggestGasTipCap; EvClose].
Proof.
  destruct (pipeline_step_failures Sample.cfg24
              (Faulty.world Faulty.bound None (inl 7) true
                 (inl 3) (inl 20) (inr "timeout") (inl 5003) (inl 21000)
                 Sample.send_ok)
              ∅ (Sample.req "1.5") 1500000000000000000)
    as (_ & _ & _ & H).
  - split; [reflexivity | vm_compute; reflexivity | exact I |].
    exists (Finite false 3 (-1)). split; vm_compute; reflexivity.
  - destruct (H 7 (2 * 10 ^ 18) None) as [_ H1].
    + split; reflexivity.
    + reflexivity.
    + vm_compute. discriminate.
    + destruct (H1 3 eq_refl) as [_ H2].
      destruct (H2 20 eq_refl) as [H3 _].
      exact (H3 "timeout" eq_refl).
Defined.

(** ** The ledger *)

(** C3: the ledger is written only when a disbursement completes.  Whenever
    the handler answers with a status other than 200, or returns without
    answering (the amount did not parse), the ledger is as it was; this
    covers validation failures, the cooldown rejection, insufficient funds
    and every failure of the pipeline.  Whenever it answers 200, the record
    of the requested address has been created or overwritten with the
    current time, and no other record has changed.  In no case does the
    ledger change without a broadcast that returned no error. *)
Theorem ledger_written_only_on_success cfg w accs :
  let out := serve cfg w accs in
  let a := Address (ShouldBindJSON w).1 in
  let rec := {| Account_Address := a; LastWithdrawTime := clock_Now w |} in
  (forall r, response out = Some r -> status r <> 200 -> ledger out = accs) /\
  (response out = None -> out.1 = Returned -> ledger out = accs) /\
  (forall r, response out = Some r -> status r = 200 ->
     ledger out = <[a := rec]> accs /\
     ledger out !! a = Some rec /\
     (forall k, k <> a -> ledger out !! k = accs !! k)) /\
  (ledger out <> accs ->
     ledger out = <[a := rec]> accs /\
     exists signedTx, SendTransaction w signedTx = Done None /\
                      EvSendTransaction signedTx ∈ calls out).
Proof.
  unfold response, ledger, calls, serve, handleWithdraw, bindRequest,
    checkAddress, checkCooldown.
  unfold StatusOK, StatusBadRequest, StatusForbidden, StatusInternalServerError.
  exec. destruct (ShouldBindJSON w) as [req [e|]]; cbn.
  { split_and!; intros; simplify_eq/=; done. }
  cases.
  all: split_and!; intros; simplify_eq/=; try done.
  all: try (split_and!; [done | apply lookup_insert_eq
                        | intros; apply lookup_insert_ne; congruence]).
  all: split; [done | eexists; split; [eassumption | set_solver]].
Qed.

Lemma ledger_written_only_on_success_witness :
  ledger
    (serve Sample.cfg24
       (Sample.world (Sample.req "1.5") (Sample.hour 30)
          (Some (2 * 10 ^ 18), None) true Sample.send_ok)
       (Sample.recorded (Sample.hour 2))) =
  Sample.recorded (Sample.hour 30 + 5 * Second).
Proof.
  destruct (ledger_written_only_on_success Sample.cfg24
              (Sample.world (Sample.req "1.5") (Sample.hour 30)
                 (Some (2 * 10 ^ 18), None) true Sample.send_ok)
              (Sample.recorded (Sample.hour 2)))
    as (_ & _ & H & _).
  destruct (H {| status := 200; body := success_body Sample.cfg24 "0xabc123" |})
    as [-> _].
  - vm_compute; reflexivity.
  - reflexivity.
  - vm_compute; reflexivity.
Defined.

(** ** The cooldown message *)

(** Whatever interval is configured, a 403 carries the same text. *)
Lemma cooldown_response_fixed cfg w accs r :
  response (serve cfg w accs) = Some r ->
  status r = 403 ->
  body r = BodyApi {| Success := false;
                      Message := "You can only withdraw once every 24 hours." |}.
Proof.
  unfold response, serve, handleWithdraw, bindRequest, checkAddress,
    checkCooldown.
  unfold StatusOK, StatusBadRequest, StatusForbidden, StatusInternalServerError.
  exec. cases; intros [= <-]; cbn; done.
Qed.

(** C5, at an interval of 12 hours: a request one hour after the recorded
    withdrawal is rejected with HTTP 403 and success false, while the
    cooldown that is enforced is the configured one; but the message names
    24 hours, not the 12 that were loaded from the configuration. *)
Theorem cooldown_message_ignores_interval :
  let w := Sample.world (Sample.req "1.5") (Sample.hour 30)
             (Some (2 * 10 ^ 18), None) true Sample.send_ok in
  let accs := Sample.recorded (Sample.hour 29) in
  Sample.cfg 12 = inl Sample.cfg12 /\
  cooldown Sample.cfg12 = 12 * Hour /\
  serve Sample.cfg12 w accs =
    (Returned,
     {| accounts := accs;
        written := Some {| status := 403;
                           body := BodyApi {| Success := false;
                             Message := "You can only withdraw once every 24 hours." |} |};
        trace := [] |}) /\
  response (serve Sample.cfg12 w accs) <>
    Some {| status := 403;
            body := BodyApi {| Success := false;
              Message := "You can only withdraw once every "
                         +:+ pretty (integerDefault Sample.cfg12)
                         +:+ " hours." |} |}.
Proof.
  cbn zeta. split_and!.
  - reflexivity.
  - reflexivity.
  - vm_compute. reflexivity.
  - intros H. vm_compute in H. discriminate H.
Qed.

(** ** Amount normalization *)

Lemma round53_fits m e : (N.size m <= 53)%N -> round53 m e = (m, e).
Proof.
  intros H. unfold round53. now rewrite (proj2 (N.leb_le _ _) H).
Qed.

Lemma shiftl_scale (a e : Z) :
  0 <= a ->
  Z.shiftl (a * 5 ^ 18) (e + 18) =
    if 0 <=? e then a * 10 ^ 18 * 2 ^ e else Z.quot (a * 10 ^ 18) (2 ^ (- e)).
Proof.
  intros Ha.
  replace (a * 10 ^ 18) with (a * 5 ^ 18 * 2 ^ 18) by lia.
  assert (H5 : 0 <= a * 5 ^ 18) by lia.
  set (A := a * 5 ^ 18) in *. clearbody A.
  destruct (Z.leb_spec 0 e) as [He|He].
  - rewrite Z.shiftl_mul_pow2 by lia. rewrite Z.pow_add_r by lia. lia.
  - destruct (Z.le_gt_cases 0 (e + 18)) as [Hs|Hs].
    + rewrite Z.shiftl_mul_pow2 by lia.
      replace (A * 2 ^ 18) with (A * 2 ^ (e + 18) * 2 ^ (- e)).
      * rewrite Z.quot_mul; [reflexivity|]. apply Z.pow_nonzero; lia.
      * rewrite <- Z.mul_assoc, <- Z.pow_add_r by lia. do 2 f_equal. lia.
    + rewrite Z.shiftl_div_pow2 by lia.
      rewrite Z.quot_div_nonneg by (try apply Z.pow_pos_nonneg; lia).
      replace (- e) with (- (e + 18) + 18) by lia.
      rewrite Z.pow_add_r by lia.
      rewrite Z.div_mul_cancel_r; [reflexivity | | lia].
      apply Z.pow_nonzero; lia.
Qed.

(** Without rounding in the product, lines 108-111 compute the exact
    product truncated towards zero. *)
Lemma toInt_exact neg m e :
  (N.size (m * 5 ^ 18) <= 53)%N ->
  toInt (Finite neg m e) = Some (scale_and_truncate neg m e).
Proof.
  intros Hfit. unfold toInt, f64_1e18. cbn [NewFloat mbind option_bind].
  unfold Float_Mul. rewrite (round53_fits _ _ Hfit). cbn [Float_Int mbind option_bind].
  f_equal. unfold scale_and_truncate. cbn zeta.
  rewrite N2Z.inj_mul. change (Z.of_N (5 ^ 18)) with (5 ^ 18).
  rewrite (shiftl_scale (Z.of_N m) e) by lia.
  destruct neg; cbn [xorb].
  - destruct (Z.leb_spec 0 e); [ring|].
    replace (-1 * Z.of_N m * 10 ^ 18) with (- (Z.of_N m * 10 ^ 18)) by ring.
    rewrite Z.quot_opp_l; [reflexivity|]. apply Z.pow_nonzero; lia.
  - replace (1 * Z.of_N m * 10 ^ 18) with (Z.of_N m * 10 ^ 18) by ring.
    reflexivity.
Qed.

Lemma round_even_nearest m s : nearest_even m s (round_even m s).
Proof.
  unfold nearest_even, round_even.
  destruct (N.eqb_spec s 0) as [-> | Hs].
  - change (2 ^ 0)%N with 1%N. rewrite N.mod_1_r. split_and!; lia.
  - rewrite N.shiftr_div_pow2, N.land_ones, N.shiftl_1_l.
    assert (HX : (2 ^ s = 2 * 2 ^ (s - 1))%N).
    { rewrite <- N.pow_succ_r'. f_equal. lia. }
    assert (Hpos : (0 < 2 ^ (s - 1))%N) by (apply N.neq_0_lt_0, N.pow_nonzero; lia).
    pose proof (N.div_mod m (2 ^ s)) as Hdm.
    pose proof (N.mod_lt m (2 ^ s)) as Hlt.
    set (X := (2 ^ s)%N) in *. set (Y := (2 ^ (s - 1))%N) in *.
    set (q := (m / X)%N) in *. set (r := (m mod X)%N) in *.
    assert (Hm : (m = X * q + r)%N) by (apply Hdm; lia).
    assert (Hr : (r < X)%N) by (apply Hlt; lia).
    clearbody X Y q r.
    destruct (N.ltb_spec Y r) as [Hgt | Hle]; cbn [orb].
    + split_and!; [nia | nia | intros Ht; lia].
    + destruct (N.eqb_spec r Y) as [-> | Hne]; cbn [andb].
      * destruct (N.odd q) eqn:Ho.
        -- split_and!; [nia | nia | intros _].
           rewrite N.add_1_r, N.even_succ. exact Ho.
        -- split_and!; [nia | nia | intros _].
           rewrite <- N.negb_odd, Ho. reflexivity.
      * split_and!; [nia | nia | intros Ht; lia].
Qed.

Lemma nearest_even_unique P s q1 q2 :
  nearest_even P s q1 -> nearest_even P s q2 -> q1 = q2.
Proof.
  assert (H : forall a b, nearest_even P s a -> nearest_even P s b ->
                          ~ (a < b)%N).
  { intros a b (Ha1 & Ha2 & Ha3) (Hb1 & Hb2 & Hb3) Hlt.
    assert (HXpos : (0 < 2 ^ s)%N) by (apply N.neq_0_lt_0, N.pow_nonzero; lia).
    pose proof (N.div_mod P (2 ^ s)) as Hdm.
    pose proof (N.mod_lt P (2 ^ s)) as Hml.
    set (X := (2 ^ s)%N) in *.
    set (k := (P / X)%N) in *. set (r := (P mod X)%N) in *.
    assert (HP : (P = X * k + r)%N) by (apply Hdm; lia).
    assert (Hr : (r < X)%N) by (apply Hml; lia).
    clearbody X k r. subst P.
    assert (Hb : (b = a + 1)%N) by nia. subst b.
    assert (Hk : (a = k)%N) by nia. subst a.
    assert (Ht : (2 * r = X)%N) by nia.
    specialize (Ha3 Ht). specialize (Hb3 Ht).
    rewrite N.add_1_r, N.even_succ, <- N.negb_even, Ha3 in Hb3. discriminate. }
  intros H1 H2.
  destruct (N.lt_trichotomy q1 q2) as [Hlt | [Heq | Hgt]]; [|exact Heq|].
  - destruct (H _ _ H1 H2 Hlt).
  - destruct (H _ _ H2 H1 Hgt).
Qed.

(** [round53] keeps all but the excess bits, rounded to nearest even. *)
Lemma round53_nearest m e :
  exists q, round53 m e = (q, e + Z.of_N (excess_bits m)) /\
            nearest_even m (excess_bits m) q.
Proof.
  unfold round53, excess_bits.
  destruct (N.leb_spec (N.size m) 53) as [Hle | Hgt].
  - exists m. replace (N.size m - 53)%N with 0%N by lia.
    rewrite Z.add_0_r. split; [reflexivity|].
    unfold nearest_even. change (2 ^ 0)%N with 1%N. rewrite N.mod_1_r.
    split_and!; lia.
  - eexists. split; [reflexivity | apply round_even_nearest].
Qed.

(** Lines 108-111 on any finite amount: the product with [10^18], rounded
    to 53 bits to nearest even, then truncated towards zero. *)
Lemma toInt_rounded neg m e :
  exists q,
    nearest_even (m * 5 ^ 18) (excess_bits (m * 5 ^ 18)) q /\
    toInt (Finite neg m e) =
      Some (signed neg
              (Z.shiftl (Z.of_N q)
                 (e + 18 + Z.of_N (excess_bits (m * 5 ^ 18))))).
Proof.
  destruct (round53_nearest (m * 5 ^ 18) (e + 18)) as (q & Hr & Hq).
  exists q. split; [exact Hq|].
  unfold toInt, f64_1e18. cbn [NewFloat mbind option_bind].
  unfold Float_Mul. rewrite Hr. cbn [mbind option_bind Float_Int xorb].
  unfold signed. destruct neg; reflexivity.
Qed.

(** C6: amount normalization multiplies the parsed amount by [10^18] and
    truncates to an integer, and is exact on the inputs the specification
    names: "1.5" gives 1500000000000000000 and "0" gives 0; so is "0.01",
    which gives 10000000000000000.  For every finite amount the integer is
    the product, rounded to the nearest 53-bit mantissa (a tie to the even
    one), truncated towards zero; when the product fits 53 bits that is the
    exact product truncated towards zero. *)
Theorem amount_normalization w s :
  ParseFloat_rounds_decimals w ->
  normalizeAmount w "1.5" s = (Next 1500000000000000000, s) /\
  normalizeAmount w "0" s = (Next 0, s) /\
  (forall str neg m e,
     ParseFloat w str = (Finite neg m e, None) ->
     (N.size (m * 5 ^ 18) <= 53)%N ->
     normalizeAmount w str s = (Next (scale_and_truncate neg m e), s)) /\
  normalizeAmount w "0.01" s = (Next 10000000000000000, s) /\
  (forall str neg m e,
     ParseFloat w str = (Finite neg m e, None) ->
     let P := (m * 5 ^ 18)%N in
     exists q,
       nearest_even P (excess_bits P) q /\
       (forall q', nearest_even P (excess_bits P) q' -> q' = q) /\
       normalizeAmount w str s =
         (Next (signed neg
                  (Z.shiftl (Z.of_N q) (e + 18 + Z.of_N (excess_bits P)))),
          s)).
Proof.
  intros Hw. split_and!.
  - unfold normalizeAmount.
    rewrite (Hw "1.5" false 15%N 10%N) by (vm_compute; reflexivity).
    vm_compute. reflexivity.
  - unfold normalizeAmount.
    rewrite (Hw "0" false 0%N 1%N) by (vm_compute; reflexivity).
    vm_compute. reflexivity.
  - intros str neg m e Hp Hfit. unfold normalizeAmount.
    rewrite Hp, (toInt_exact _ _ _ Hfit). reflexivity.
  - unfold normalizeAmount.
    rewrite (Hw "0.01" false 1%N 100%N) by (vm_compute; reflexivity).
    vm_compute. reflexivity.
  - intros str neg m e Hp P. subst P.
    destruct (toInt_rounded neg m e) as (q & Hq & Hi).
    exists q. split_and!; [exact Hq | |].
    + intros q' Hq'. exact (nearest_even_unique _ _ _ _ Hq' Hq).
    + unfold normalizeAmount. rewrite Hp, Hi. reflexivity.
Qed.

Lemma Sample_rounds_decimals r since bal sign send :
  ParseFloat_rounds_decimals (Sample.world r since bal sign send).
Proof.
  intros s neg n d H. cbn. unfold Sample.strconv_ParseFloat. now rewrite H.
Qed.

Lemma amount_normalization_witness :
  normalizeAmount
    (Sample.world (Sample.req "1.5") 0 (Some 0, None) true Sample.send_ok)
    "1.5" (ctx0 ∅) = (Next 1500000000000000000, ctx0 ∅).
Proof.
  destruct (amount_normalization
              (Sample.world (Sample.req "1.5") 0 (Some 0, None) true
                 Sample.send_ok) (ctx0 ∅)) as (H & _).
  - apply Sample_rounds_decimals.
  - exact H.
Defined.

(** The product is rounded to 53 bits before it is truncated: away from the
    amounts above the integer is the one nearest in [float64] terms. *)
Example amount_1_1_is_rounded :
  normalizeAmount
    (Sample.world (Sample.req "1.1") 0 (Some 0, None) true Sample.send_ok)
    "1.1" (ctx0 ∅) = (Next 1100000000000000128, ctx0 ∅).
Proof. vm_compute. reflexivity. Qed.

(** * Further properties of the handler *)

(** ** Exits before and inside the pipeline *)

(** X1: when the JSON body does not bind, the handler answers HTTP 400 with
    the binder's own error text, makes no external call and leaves the
    ledger as it was; the address, the ledger and the amount are not looked
    at. *)
Theorem bind_failure_rejected cfg w accs req e :
  ShouldBindJSON w = (req, Some e) ->
  serve cfg w accs =
    (Returned,
     {| accounts := accs;
        written := Some {| status := 400;
                           body := BodyApi {| Success := false; Message := e |} |};
        trace := [] |}).
Proof.
  intros Hb. unfold serve, handleWithdraw. apply bind_Returned.
  unfold bindRequest. rewrite Hb. reflexivity.
Qed.

Lemma bind_failure_rejected_witness :
  serve Sample.cfg24
    (Faulty.world (Sample.req "1.5", Some "EOF") None (inl 7) true
       (inl 3) (inl 20) (inl 2) (inl 5003) (inl 21000) Sample.send_ok)
    (Sample.recorded 0) =
    (Returned,
     {| accounts := Sample.recorded 0;
        written := Some {| status := 400;
                           body := BodyApi {| Success := false;
                                              Message := "EOF" |} |};
        trace := [] |}).
Proof.
  apply (bind_failure_rejected Sample.cfg24
           (Faulty.world (Sample.req "1.5", Some "EOF") None (inl 7) true
              (inl 3) (inl 20) (inl 2) (inl 5003) (inl 21000) Sample.send_ok)
           (Sample.recorded 0) (Sample.req "1.5") "EOF").
  reflexivity.
Defined.

Lemma Faulty_accepted dial key pub nonce fee tip chain gas send :
  accepted Sample.cfg24
    (Faulty.world Faulty.bound dial key pub nonce fee tip chain gas send) ∅
    (Sample.req "1.5") 1500000000000000000.
Proof.
  split; [reflexivity | vm_compute; reflexivity | exact I |].
  exists (Finite false 3 (-1)). split; vm_compute; reflexivity.
Qed.

Lemma Faulty_funded :
  (1500000000000000000 <= 2 * 10 ^ 18)%Z.
Proof. vm_compute. discriminate. Qed.

Lemma connect_failure_witness :
  serve Sample.cfg24
    (Faulty.world Faulty.bound (Some "no route to host") (inl 7) true
       (inl 3) (inl 20) (inl 2) (inl 5003) (inl 21000) Sample.send_ok) ∅ =
  failure ∅ "Failed to connect to Mantle client"
    [EvDial "https://rpc.sepolia.mantle.xyz"].
Proof.
  apply (connect_failure Sample.cfg24
           (Faulty.world Faulty.bound (Some "no route to host") (inl 7) true
              (inl 3) (inl 20) (inl 2) (inl 5003) (inl 21000) Sample.send_ok)
           ∅ (Sample.req "1.5") 1500000000000000000 "no route to host").
  - apply Faulty_accepted.
  - reflexivity.
Defined.

(** X3: when the configured private key does not decode, or its public key
    is not an ECDSA key, the handler answers HTTP 500 "Failed to decode
    private key"; the connection opened just before is closed and the chain
    is not queried. *)
Theorem private_key_failure cfg w accs req intAmount :
  accepted cfg w accs req intAmount ->
  DialContext w ("https://" +:+ Network req) = None ->
  (exists e, HexToECDSA w (privateKeyDefault cfg) = inr e) \/
  (exists key, HexToECDSA w (privateKeyDefault cfg) = inl key /\
               PublicIsECDSA w key = false) ->
  serve cfg w accs =
    failure accs "Failed to decode private key"
      [EvDial ("https://" +:+ Network req); EvClose].
Proof.
  intros Hacc Hd [[e Hk] | (key & Hk & Hp)].
  - now apply (key_failure _ _ _ _ _ e Hacc Hd).
  - rewrite (serve_accepted _ _ _ _ _ Hacc).
    unfold ctx0, failure. exec. feed. reflexivity.
Qed.

Lemma private_key_failure_witness :
  serve Sample.cfg24
    (Faulty.world Faulty.bound None (inr "invalid hex character") true
       (inl 3) (inl 20) (inl 2) (inl 5003) (inl 21000) Sample.send_ok) ∅ =
  failure ∅ "Failed to decode private key"
    [EvDial "https://rpc.sepolia.mantle.xyz"; EvClose].
Proof.
  apply (private_key_failure Sample.cfg24
           (Faulty.world Faulty.bound None (inr "invalid hex character") true
              (inl 3) (inl 20) (inl 2) (inl 5003) (inl 21000) Sample.send_ok)
           ∅ (Sample.req "1.5") 1500000000000000000).
  - apply Faulty_accepted.
  - reflexivity.
  - left. exists "invalid hex character". reflexivity.
Defined.

Lemma nonce_failure_witness :
  serve Sample.cfg24
    (Faulty.world Faulty.bound None (inl 7) true
       (inr "timeout") (inl 20) (inl 2) (inl 5003) (inl 21000) Sample.send_ok) ∅ =
  failure ∅ "Failed to get nonce"
    [EvDial "https://rpc.sepolia.mantle.xyz"; EvBalanceAt 1007;
     EvPendingNonceAt 1007; EvClose].
Proof.
  eapply (nonce_failure Sample.cfg24
           (Faulty.world Faulty.bound None (inl 7) true
              (inr "timeout") (inl 20) (inl 2) (inl 5003) (inl 21000)
              Sample.send_ok)
           ∅ (Sample.req "1.5") 1500000000000000000 7 (2 * 10 ^ 18) None).
  - apply Faulty_accepted.
  - split; reflexivity.
  - reflexivity.
  - apply Faulty_funded.
  - reflexivity.
Defined.

Lemma gas_price_failure_witness :
  serve Sample.cfg24
    (Faulty.world Faulty.bound None (inl 7) true
       (inl 3) (inr "timeout") (inl 2) (inl 5003) (inl 21000) Sample.send_ok) ∅ =
  failure ∅ "Failed to get gas price"
    [EvDial "https://rpc.sepolia.mantle.xyz"; EvBalanceAt 1007;
     EvPendingNonceAt 1007; EvSuggestGasPrice; EvClose].
Proof.
  eapply (gas_price_failure Sample.cfg24
           (Faulty.world Faulty.bound None (inl 7) true
              (inl 3) (inr "timeout") (inl 2) (inl 5003) (inl 21000)
              Sample.send_ok)
           ∅ (Sample.req "1.5") 1500000000000000000 7 (2 * 10 ^ 18) None).
  - apply Faulty_accepted.
  - split; reflexivity.
  - reflexivity.
  - apply Faulty_funded.
  - reflexivity.
  - reflexivity.
Defined.

Lemma tip_cap_failure_witness :
  serve Sample.cfg24
    (Faulty.world Faulty.bound None (inl 7) true
       (inl 3) (inl 20) (inr "timeout") (inl 5003) (inl 21000) Sample.send_ok) ∅ =
  failure ∅ "Failed to get gas tip cap"
    [EvDial "https://rpc.sepolia.mantle.xyz"; EvBalanceAt 1007;
     EvPendingNonceAt 1007; EvSuggestGasPrice; EvSuggestGasTipCap; EvClose].
Proof.
  eapply (tip_cap_failure Sample.cfg24
           (Faulty.world Faulty.bound None (inl 7) true
              (inl 3) (inl 20) (inr "timeout") (inl 5003) (inl 21000)
              Sample.send_ok)
           ∅ (Sample.req "1.5") 1500000000000000000 7 (2 * 10 ^ 18) None).
  - apply Faulty_accepted.
  - split; reflexivity.
  - reflexivity.
  - apply Faulty_funded.
  - reflexivity.
  - reflexivity.
  - reflexivity.
Defined.

Lemma chain_id_failure_witness :
  serve Sample.cfg24
    (Faulty.world Faulty.bound None (inl 7) true
       (inl 3) (inl 20) (inl 2) (inr "timeout") (inl 21000) Sample.send_ok) ∅ =
  failure ∅ "Failed to get network ID"
    [EvDial "https://rpc.sepolia.mantle.xyz"; EvBalanceAt 1007;
     EvPendingNonceAt 1007; EvSuggestGasPrice; EvSuggestGasTipCap;
     EvNetworkID; EvClose].
Proof.
  eapply (chain_id_failure Sample.cfg24
           (Faulty.world Faulty.bound None (inl 7) true
              (inl 3) (inl 20) (inl 2) (inr "timeout") (inl 21000)
              Sample.send_ok)
           ∅ (Sample.req "1.5") 1500000000000000000 7 (2 * 10 ^ 18) None).
  - apply Faulty_accepted.
  - split; reflexivity.
  - reflexivity.
  - apply Faulty_funded.
  - reflexivity.
  - reflexivity.
  - reflexivity.
  - reflexivity.
Defined.

Lemma estimate_failure_witness :
  serve Sample.cfg24
    (Faulty.world Faulty.bound None (inl 7) true
       (inl 3) (inl 20) (inl 2) (inl 5003) (inr "execution reverted")
       Sample.send_ok) ∅ =
  failure ∅ "Failed to estimate gas"
    [EvDial "https://rpc.sepolia.mantle.xyz"; EvBalanceAt 1007;
     EvPendingNonceAt 1007; EvSuggestGasPrice; EvSuggestGasTipCap;
     EvNetworkID;
     EvEstimateGas {| msg_From := 1007; msg_To := 42; msg_GasFeeCap := 20;
                      msg_GasTipCap := 2; msg_Value := 1500000000000000000;
                      msg_Data := [] |};
     EvClose].
Proof.
  eapply (estimate_failure Sample.cfg24
            (Faulty.world Faulty.bound None (inl 7) true
               (inl 3) (inl 20) (inl 2) (inl 5003) (inr "execution reverted")
               Sample.send_ok)
            ∅ (Sample.req "1.5") 1500000000000000000 7 (2 * 10 ^ 18) None).
  - apply Faulty_accepted.
  - split; reflexivity.
  - reflexivity.
  - apply Faulty_funded.
  - reflexivity.
  - reflexivity.
  - reflexivity.
  - reflexivity.
  - reflexivity.
Defined.

Lemma Faulty_quoted dial key pub send :
  quoted
    (Faulty.world Faulty.bound dial key pub (inl 3) (inl 20) (inl 2)
       (inl 5003) (inl 21000) send)
    7 Sample.addr 1500000000000000000 3 20 2 5003 21000.
Proof.
  split; try reflexivity.
  exists (2 * 10 ^ 18), None. split; [reflexivity | apply Faulty_funded].
Qed.

Lemma broadcast_failure_witness :
  response
    (serve Sample.cfg24
       (Faulty.world Faulty.bound None (inl 7) true
          (inl 3) (inl 20) (inl 2) (inl 5003) (inl 21000)
          Faulty.send_refused) ∅) =
  Some {| status := 500;
          body := BodyApi {| Success := false; Message := "Deal failed" |} |}.
Proof.
  rewrite (broadcast_failure Sample.cfg24
             (Faulty.world Faulty.bound None (inl 7) true
                (inl 3) (inl 20) (inl 2) (inl 5003) (inl 21000)
                Faulty.send_refused)
             ∅ (Sample.req "1.5") 1500000000000000000 7 3 20 2 5003 21000
             {| inner := {| ChainID := 5003; Nonce := 3; GasFeeCap := 20;
                            GasTipCap := 2; Gas := 21000; To := 42;
                            Value := 1500000000000000000; Data := [] |};
                signature := Some 7 |}
             "nonce too low").
  - reflexivity.
  - apply Faulty_accepted.
  - split; reflexivity.
  - apply Faulty_quoted.
  - reflexivity.
  - reflexivity.
Defined.

Lemma status_200_is_success_witness :
  exists signedTx,
    SignTx
      (Sample.world (Sample.req "1.5") (Sample.hour 30)
         (Some (2 * 10 ^ 18), None) true Sample.send_ok)
      (unsigned_tx
         (Sample.world (Sample.req "1.5") (Sample.hour 30)
            (Some (2 * 10 ^ 18), None) true Sample.send_ok)
         Sample.addr 1500000000000000000 3 20 2 5003 21000)
      5003 7 = inl signedTx /\
    SendTransaction
      (Sample.world (Sample.req "1.5") (Sample.hour 30)
         (Some (2 * 10 ^ 18), None) true Sample.send_ok)
      (Some signedTx) = Done None.
Proof.
  destruct (status_200_is_success Sample.cfg24
              (Sample.world (Sample.req "1.5") (Sample.hour 30)
                 (Some (2 * 10 ^ 18), None) true Sample.send_ok)
              ∅ {| status := 200;
                   body := success_body Sample.cfg24 "0xabc123" |})
    as (req & a & key & n & f & t & c & g & stx & _ & _ & _ & _ & H & _).
  - vm_compute; reflexivity.
  - reflexivity.
  - exists {| inner := {| ChainID := 5003; Nonce := 3; GasFeeCap := 20;
                          GasTipCap := 2; Gas := 21000; To := 42;
                          Value := 1500000000000000000; Data := [] |};
              signature := Some 7 |}.
    split; reflexivity.
Defined.

(** ** What every request has in common *)

Ltac open_serve :=
  unfold paid, record_of, requested, response, ledger, calls, serve,
    handleWithdraw, bindRequest, checkAddress, checkCooldown in *;
  unfold StatusOK, StatusBadRequest, StatusForbidden,
    StatusInternalServerError in *;
  exec.

(** X11: every response the handler writes has status 200, 400, 403 or 500.
    With 200 the handler ran to its end; with the others it returned, and
    the body is an [ApiResponse] whose [success] is false.  The handler
    never panics after it has written a response, and the only return
    without a response is the one after an amount that did not parse. *)
Theorem response_shape cfg w accs :
  let out := serve cfg w accs in
  match response out with
  | Some r =>
      (status r = 200 /\ out.1 = Next tt) \/
      ((status r = 400 \/ status r = 403 \/ status r = 500) /\
       out.1 = Returned /\
       exists msg, body r = BodyApi {| Success := false; Message := msg |})
  | None =>
      out.1 = Panicked \/
      (out.1 = Returned /\
       exists f e, ParseFloat w (Amount (ShouldBindJSON w).1) = (f, Some e))
  end.
Proof.
  open_serve. destruct (ShouldBindJSON w) as [req [e|]]; cbn.
  { right. eauto 10. }
  cases; eauto 10.
Qed.

(** X12: the connection is handled the same way on every path, panics
    included.  The dial is the first external call, it is made at most once
    and to [https://] followed by the [network] of the request.  When it
    fails nothing else is called; when it succeeds the connection is closed
    exactly once, as the last call. *)
Theorem connection_closed_once cfg w accs :
  let url := "https://" +:+ Network (ShouldBindJSON w).1 in
  match calls (serve cfg w accs) with
  | [] => True
  | ev :: rest =>
      ev = EvDial url /\
      List.filter is_dial rest = [] /\
      match DialContext w url with
      | Some _ => rest = []
      | None => last rest = Some EvClose /\
                length (List.filter is_close rest) = 1%nat
      end
  end.
Proof.
  open_serve. destruct (ShouldBindJSON w) as [req [e|]]; cbn; [done|].
  cases.
Qed.

Ltac not_in_trace H :=
  exfalso; repeat rewrite elem_of_cons in H; rewrite elem_of_nil in H;
  intuition discriminate.

(** X10: a broadcast is attempted only for a request that bound, named a
    valid address out of cooldown and an amount that normalized, after the
    dial and the key succeeded, the operator balance covered the amount and
    the nonce, both fees, the chain id and the gas estimate were all
    obtained.  The calls are then exactly those of the pipeline in their
    order: the transaction built from those values is handed to the signer
    first, and what the signer returned is what is broadcast next. *)
Theorem broadcast_only_when_funded cfg w accs signedTx :
  EvSendTransaction signedTx ∈ calls (serve cfg w accs) ->
  exists req intAmount key nonce fee tip chain gas,
    accepted cfg w accs req intAmount /\
    connected cfg w req key /\
    quoted w key (Address req) intAmount nonce fee tip chain gas /\
    let tx := unsigned_tx w (Address req) intAmount nonce fee tip chain gas in
    signedTx = match SignTx w tx chain key with
               | inl t => Some t
               | inr _ => None
               end /\
    calls (serve cfg w accs) =
      pipeline_calls w req key intAmount fee tip tx signedTx.
Proof.
  open_serve.
  destruct (ShouldBindJSON w) as [req [e|]] eqn:Hb; cbn;
    [intros H; not_in_trace H|].
  intros H. cases; try (not_in_trace H).
  all: repeat rewrite elem_of_cons in H; rewrite elem_of_nil in H.
  all: destruct_or!; try discriminate; try done; simplify_eq.
  all: exists req; eexists _, _, _, _, _, _, _; tidy_guards.
  all: split_and!;
    [ split; [eassumption | eassumption | passed_guard | eauto]
    | split; eassumption
    | split; [unfold operator; eauto | eassumption ..]
    | unfold unsigned_tx;
      match goal with H : SignTx _ _ _ _ = _ |- _ => rewrite H end;
      reflexivity
    | reflexivity ].
Qed.

Lemma broadcast_only_when_funded_witness :
  exists req intAmount key nonce fee tip chain gas,
    accepted Sample.cfg24
      (Sample.world (Sample.req "1.5") (Sample.hour 30)
         (Some (2 * 10 ^ 18), None) true Sample.send_ok) ∅ req intAmount /\
    connected Sample.cfg24
      (Sample.world (Sample.req "1.5") (Sample.hour 30)
         (Some (2 * 10 ^ 18), None) true Sample.send_ok) req key /\
    quoted
      (Sample.world (Sample.req "1.5") (Sample.hour 30)
         (Some (2 * 10 ^ 18), None) true Sample.send_ok)
      key (Address req) intAmount nonce fee tip chain gas.
Proof.
  destruct (broadcast_only_when_funded Sample.cfg24
              (Sample.world (Sample.req "1.5") (Sample.hour 30)
                 (Some (2 * 10 ^ 18), None) true Sample.send_ok)
              ∅ (Some {| inner := {| ChainID := 5003; Nonce := 3;
                                     GasFeeCap := 20; GasTipCap := 2;
                                     Gas := 21000; To := 42;
                                     Value := 1500000000000000000;
                                     Data := [] |};
                         signature := Some 7 |}))
    as (req & a & key & n & f & t & c & g & H1 & H2 & H3 & _).
  - vm_compute.
    repeat first [apply list_elem_of_here | apply list_elem_of_further].
  - exists req, a, key, n, f, t, c, g. auto.
Defined.

(** ** One step of the ledger *)

(** The ledger after a request is the ledger before, or the ledger before
    with the record of the request written over the requested address; the
    second only for a valid address that the guard let through. *)
Lemma serve_ledger_step cfg w accs :
  ledger (serve cfg w accs) = accs \/
  (ledger (serve cfg w accs) = <[requested w := record_of w]> accs /\
   IsHexAddress w (requested w) = true /\
   not_in_cooldown cfg w accs (requested w)).
Proof.
  unfold not_in_cooldown. open_serve.
  destruct (ShouldBindJSON w) as [req [e|]]; cbn; [by left|].
  cases; try (by left).
  all: right; split_and!; try done.
  all: repeat match goal with
         | H : negb _ = false |- _ => apply negb_false_iff in H
         | H : (_ <? _) = false |- _ => apply Z.ltb_ge in H
         end; done.
Qed.

Lemma paid_recorded cfg w accs :
  paid (serve cfg w accs) ->
  ledger (serve cfg w accs) = <[requested w := record_of w]> accs /\
  not_in_cooldown cfg w accs (requested w).
Proof.
  unfold not_in_cooldown. open_serve.
  destruct (ShouldBindJSON w) as [req [e|]]; cbn.
  { intros (r & [= <-] & Hs). done. }
  cases; intros (r & Hr & Hs); simplify_eq/=.
  all: split; try done.
  all: repeat match goal with
         | H : (_ <? _) = false |- _ => apply Z.ltb_ge in H
         end; done.
Qed.

Lemma mono_step cfg w accs :
  well_clocked w -> ledger_mono accs -> ledger_mono (ledger (serve cfg w accs)).
Proof.
  intros (_ & Hnow & _) Hm.
  destruct (serve_ledger_step cfg w accs) as [-> | [-> _]]; [done|].
  intros k rec. rewrite lookup_insert. case_decide.
  - intros [= <-]. exact Hnow.
  - apply Hm.
Qed.

(** A record in place, not older than [t], is still there after a request
    and still not older than [t]. *)
Lemma floor_step cfg w accs a rec t :
  0 <= cooldown cfg ->
  well_clocked w -> ledger_mono accs ->
  accs !! a = Some rec -> t <= LastWithdrawTime rec ->
  exists rec', ledger (serve cfg w accs) !! a = Some rec' /\
               t <= LastWithdrawTime rec'.
Proof.
  intros Hd (Hs & Hn & Hsn) Hm Ha Ht.
  destruct (serve_ledger_step cfg w accs) as [-> | (-> & _ & Hc)]; [eauto|].
  rewrite lookup_insert. case_decide as Hk; [|eauto].
  eexists. split; [reflexivity|]. cbn.
  unfold not_in_cooldown in Hc. rewrite Hk, Ha in Hc.
  rewrite (subMono_exact _ _ Hs (Hm _ _ Ha)) in Hc. lia.
Qed.

(** ** Invariants of a run *)

(** X13: every record is stored under the address it carries: a ledger with
    that property keeps it through any sequence of requests. *)
Theorem run_keeps_keys cfg ws accs :
  keyed accs -> keyed (ledger_after cfg ws accs).
Proof.
  revert accs. induction ws as [|w ws IH]; intros accs Hk; [exact Hk|].
  cbn. apply IH.
  destruct (serve_ledger_step cfg w accs) as [-> | [-> _]]; [exact Hk|].
  intros k rec. rewrite lookup_insert. case_decide.
  - intros [= <-]. cbn. congruence.
  - apply Hk.
Qed.

Lemma run_keeps_keys_witness :
  keyed
    (ledger_after Sample.cfg24
       [Sample.world (Sample.req "1.5") (Sample.hour 30)
          (Some (2 * 10 ^ 18), None) true Sample.send_ok]
       (Sample.recorded (Sample.hour 2))).
Proof.
  apply (run_keeps_keys Sample.cfg24
           [Sample.world (Sample.req "1.5") (Sample.hour 30)
              (Some (2 * 10 ^ 18), None) true Sample.send_ok]
           (Sample.recorded (Sample.hour 2))).
  intros k rec. unfold Sample.recorded.
  rewrite lookup_singleton. case_decide; [|discriminate].
  intros [= <-]. cbn. congruence.
Defined.

(** X14: no request removes a record.  Every address recorded before a run
    is recorded after it, and a run of [n] requests adds at most [n]
    records. *)
Theorem run_never_forgets cfg ws accs :
  (forall k, is_Some (accs !! k) -> is_Some (ledger_after cfg ws accs !! k)) /\
  (size (ledger_after cfg ws accs) <= size accs + length ws)%nat.
Proof.
  revert accs. induction ws as [|w ws IH]; intros accs; cbn.
  { split; [done | lia]. }
  destruct (IH (ledger (serve cfg w accs))) as [IH1 IH2].
  destruct (serve_ledger_step cfg w accs) as [E | [E _]]; rewrite E in *.
  - split; [exact IH1 | lia].
  - split.
    + intros k Hk. apply IH1. rewrite lookup_insert. case_decide; [eauto|done].
    + pose proof (map_size_insert (requested w) (record_of w) accs) as Hs.
      destruct (accs !! requested w); cbn in Hs; lia.
Qed.

(** X15: the ledger only ever takes in addresses that passed validation: a
    record found after a run was there before it, or is stored under the
    address of one of the requests of the run, and that address is one
    [IsHexAddress] accepted. *)
Theorem run_records_valid_addresses cfg ws accs k rec :
  ledger_after cfg ws accs !! k = Some rec ->
  is_Some (accs !! k) \/
  exists w, w ∈ ws /\ requested w = k /\ IsHexAddress w k = true.
Proof.
  revert accs. induction ws as [|w ws IH]; intros accs; cbn.
  { eauto. }
  intros H. destruct (IH _ H) as [Hs | (w' & Hin & Hw')].
  - destruct (serve_ledger_step cfg w accs) as [E | (E & Hv & _)];
      rewrite E in Hs; [by left|].
    rewrite lookup_insert in Hs. case_decide as Hk; [|by left].
    right. exists w. subst k. split_and!; [apply list_elem_of_here|done..].
  - right. exists w'. split; [by apply list_elem_of_further | done].
Qed.

Lemma run_records_valid_addresses_witness :
  is_Some ((∅ : gmap string Account) !! Sample.addr) \/
  exists w,
    w ∈ [Sample.world (Sample.req "1.5") (Sample.hour 30)
           (Some (2 * 10 ^ 18), None) true Sample.send_ok] /\
    requested w = Sample.addr /\ IsHexAddress w Sample.addr = true.
Proof.
  apply (run_records_valid_addresses Sample.cfg24
           [Sample.world (Sample.req "1.5") (Sample.hour 30)
              (Some (2 * 10 ^ 18), None) true Sample.send_ok]
           ∅ Sample.addr
           {| Account_Address := Sample.addr;
              LastWithdrawTime := Sample.hour 30 + 5 * Second |}).
  vm_compute. reflexivity.
Defined.

Lemma Forall_well_clocked_cons w ws :
  Forall well_clocked (w :: ws) -> well_clocked w /\ Forall well_clocked ws.
Proof. intros H. inversion H; auto. Qed.

(** X16: a recorded time never moves backwards.  With a cooldown that is not
    negative and clocks that do not run backwards inside a request, a
    record present before a run is present after it with a time that is not
    earlier. *)
Theorem recorded_time_never_decreases cfg ws accs a rec :
  0 <= cooldown cfg ->
  Forall well_clocked ws ->
  ledger_mono accs ->
  accs !! a = Some rec ->
  exists rec', ledger_after cfg ws accs !! a = Some rec' /\
               LastWithdrawTime rec <= LastWithdrawTime rec'.
Proof.
  intros Hd Hws. revert accs rec.
  induction ws as [|w ws IH]; intros accs rec Hm Ha; cbn.
  { exists rec. split; [done | lia]. }
  apply Forall_well_clocked_cons in Hws as [Hw Hws].
  destruct (floor_step cfg w accs a rec (LastWithdrawTime rec) Hd Hw Hm Ha)
    as (rec1 & Ha1 & Hle1); [lia|].
  destruct (IH Hws _ rec1 (mono_step cfg w accs Hw Hm) Ha1)
    as (rec2 & Ha2 & Hle2).
  exists rec2. split; [done | lia].
Qed.

Lemma Sample_well_clocked r n bal sign send :
  0 <= n < 2000000 ->
  well_clocked (Sample.world r (Sample.hour n) bal sign send).
Proof.
  intros H. unfold well_clocked, mono_reading.
  cbn [clock_Since clock_Now Sample.world].
  unfold Sample.hour, Hour, Second, Nanosecond. lia.
Qed.

Lemma Sample_recorded_mono n :
  0 <= n < 2000000 -> ledger_mono (Sample.recorded (Sample.hour n)).
Proof.
  intros H k rec. unfold Sample.recorded. rewrite lookup_singleton.
  case_decide; [|discriminate]. intros [= <-].
  unfold mono_reading. cbn [LastWithdrawTime].
  unfold Sample.hour, Hour, Second, Nanosecond. lia.
Qed.

Lemma recorded_time_never_decreases_witness :
  exists rec',
    ledger_after Sample.cfg24
      [Sample.world (Sample.req "1.5") (Sample.hour 30)
         (Some (2 * 10 ^ 18), None) true Sample.send_ok]
      (Sample.recorded (Sample.hour 2)) !! Sample.addr = Some rec' /\
    Sample.hour 2 <= LastWithdrawTime rec'.
Proof.
  apply (recorded_time_never_decreases Sample.cfg24
           [Sample.world (Sample.req "1.5") (Sample.hour 30)
              (Some (2 * 10 ^ 18), None) true Sample.send_ok]
           (Sample.recorded (Sample.hour 2)) Sample.addr
           {| Account_Address := Sample.addr;
              LastWithdrawTime := Sample.hour 2 |}).
  - vm_compute. discriminate.
  - repeat constructor; apply Sample_well_clocked; lia.
  - apply Sample_recorded_mono. lia.
  - vm_compute. reflexivity.
Defined.

(** A payment to [a] later in a run is at least a cooldown after any time
    the ledger already holds for [a]. *)
Lemma later_payment cfg a ws :
  0 <= cooldown cfg ->
  Forall well_clocked ws ->
  forall accs rec t j wj oj,
    ledger_mono accs ->
    accs !! a = Some rec -> t <= LastWithdrawTime rec ->
    ws !! j = Some wj -> run cfg ws accs !! j = Some oj ->
    paid oj -> requested wj = a ->
    cooldown cfg <= clock_Since wj - t.
Proof.
  intros Hd Hws. induction ws as [|w ws IH];
    intros accs rec t j wj oj Hm Ha Ht Hj Ho Hp Hr; [done|].
  apply Forall_well_clocked_cons in Hws as [Hw Hws].
  destruct j as [|j]; cbn in Hj, Ho.
  - injection Hj as <-. injection Ho as <-.
    destruct (paid_recorded _ _ _ Hp) as [_ Hc].
    unfold not_in_cooldown in Hc. rewrite Hr, Ha in Hc.
    destruct Hw as (Hs & _ & _).
    rewrite (subMono_exact _ _ Hs (Hm _ _ Ha)) in Hc. lia.
  - destruct (floor_step cfg w accs a rec t Hd Hw Hm Ha Ht)
      as (rec1 & Ha1 & Hle1).
    exact (IH Hws _ rec1 t j wj oj (mono_step cfg w accs Hw Hm) Ha1 Hle1
             Hj Ho Hp Hr).
Qed.

(** X17: the rate limit of a run.  Start from any ledger of monotonic
    readings (the empty one at process start), with a cooldown that is not
    negative and clocks that do not run backwards inside a request.  If two
    requests of the run, handled one after another, are both answered 200
    for the same address string, then the later one was checked at least a
    cooldown after the earlier one was recorded. *)
Theorem sequential_rate_limit cfg ws accs i j wi wj oi oj :
  0 <= cooldown cfg ->
  Forall well_clocked ws ->
  ledger_mono accs ->
  (i < j)%nat ->
  ws !! i = Some wi -> ws !! j = Some wj ->
  run cfg ws accs !! i = Some oi -> run cfg ws accs !! j = Some oj ->
  paid oi -> paid oj ->
  requested wi = requested wj ->
  cooldown cfg <= clock_Since wj - clock_Now wi.
Proof.
  intros Hd Hws. revert accs i j.
  induction ws as [|w ws IH];
    intros accs i j Hm Hij Hi Hj Hoi Hoj Hpi Hpj Hr; [done|].
  apply Forall_well_clocked_cons in Hws as [Hw Hws].
  destruct j as [|j]; [lia|]. cbn in Hj, Hoj.
  destruct i as [|i]; cbn in Hi, Hoi.
  - injection Hi as <-. injection Hoi as <-.
    destruct (paid_recorded _ _ _ Hpi) as [E _].
    apply (later_payment cfg (requested w) ws Hd Hws
             (ledger (serve cfg w accs)) (record_of w) (clock_Now w)
             j wj oj);
      [by apply mono_step | rewrite E; apply lookup_insert_eq | cbn; lia
      | done ..].
  - apply (IH Hws (ledger (serve cfg w accs)) i j);
      [by apply mono_step | lia | done ..].
Qed.

Lemma sequential_rate_limit_witness :
  cooldown Sample.cfg24 <= Sample.hour 60 - (Sample.hour 30 + 5 * Second).
Proof.
  apply (sequential_rate_limit Sample.cfg24
           [Sample.world (Sample.req "1.5") (Sample.hour 30)
              (Some (4 * 10 ^ 18), None) true Sample.send_ok;
            Sample.world (Sample.req "1.5") (Sample.hour 60)
              (Some (2 * 10 ^ 18), None) true Sample.send_ok]
           ∅ 0%nat 1%nat
           (Sample.world (Sample.req "1.5") (Sample.hour 30)
              (Some (4 * 10 ^ 18), None) true Sample.send_ok)
           (Sample.world (Sample.req "1.5") (Sample.hour 60)
              (Some (2 * 10 ^ 18), None) true Sample.send_ok)
           (serve Sample.cfg24
              (Sample.world (Sample.req "1.5") (Sample.hour 30)
                 (Some (4 * 10 ^ 18), None) true Sample.send_ok) ∅)
           (serve Sample.cfg24
              (Sample.world (Sample.req "1.5") (Sample.hour 60)
                 (Some (2 * 10 ^ 18), None) true Sample.send_ok)
              (Sample.recorded (Sample.hour 30 + 5 * Second)))).
  - vm_compute. discriminate.
  - repeat constructor; apply Sample_well_clocked; lia.
  - intros k rec H. rewrite lookup_empty in H. discriminate H.
  - lia.
  - reflexivity.
  - reflexivity.
  - reflexivity.
  - vm_compute. reflexivity.
  - eexists. split; [vm_compute; reflexivity | reflexivity].
  - eexists. split; [vm_compute; reflexivity | reflexivity].
  - reflexivity.
Defined.

(** ** Two requests in a row *)

(** X18: a request for the address string that was just paid, checked less
    than a cooldown after the payment was recorded, is answered with the
    403 rejection; it makes no external call and leaves the new record in
    place. *)
Theorem retry_within_cooldown_rejected cfg w1 w2 accs req2 :
  paid (serve cfg w1 accs) ->
  ShouldBindJSON w2 = (req2, None) ->
  IsHexAddress w2 (Address req2) = true ->
  Address req2 = requested w1 ->
  mono_reading (clock_Now w1) -> mono_reading (clock_Since w2) ->
  clock_Since w2 - clock_Now w1 < cooldown cfg ->
  serve cfg w2 (ledger (serve cfg w1 accs)) =
    cooldown_rejection (<[requested w1 := record_of w1]> accs).
Proof.
  intros Hp Hb Ha Hr Hn Hs Hlt.
  destruct (paid_recorded _ _ _ Hp) as [-> _].
  rewrite (serve_guard _ _ _ _ Hb Ha). apply bind_Returned.
  rewrite (checkCooldown_recorded cfg w2 (Address req2)
             (ctx0 (<[requested w1 := record_of w1]> accs)) (record_of w1))
    by (rewrite Hr; apply lookup_insert_eq).
  cbn [record_of LastWithdrawTime].
  rewrite (subMono_exact _ _ Hs Hn).
  rewrite (proj2 (Z.ltb_lt _ _) Hlt). reflexivity.
Qed.

Lemma retry_within_cooldown_rejected_witness :
  serve Sample.cfg24
    (Sample.world (Sample.req "1.5") (Sample.hour 40)
       (Some (2 * 10 ^ 18), None) true Sample.send_ok)
    (ledger
       (serve Sample.cfg24
          (Sample.world (Sample.req "1.5") (Sample.hour 30)
             (Some (2 * 10 ^ 18), None) true Sample.send_ok) ∅)) =
  cooldown_rejection
    (<[Sample.addr := {| Account_Address := Sample.addr;
                         LastWithdrawTime := Sample.hour 30 + 5 * Second |}]> ∅).
Proof.
  apply (retry_within_cooldown_rejected Sample.cfg24
           (Sample.world (Sample.req "1.5") (Sample.hour 30)
              (Some (2 * 10 ^ 18), None) true Sample.send_ok)
           (Sample.world (Sample.req "1.5") (Sample.hour 40)
              (Some (2 * 10 ^ 18), None) true Sample.send_ok)
           ∅ (Sample.req "1.5")).
  - eexists. split; [vm_compute; reflexivity | reflexivity].
  - reflexivity.
  - vm_compute; reflexivity.
  - reflexivity.
  - vm_compute; split; [discriminate | reflexivity].
  - vm_compute; split; [discriminate | reflexivity].
  - vm_compute; reflexivity.
Defined.

(** X19: the guard looks the address up as the string the request carries.
    A record under one spelling does not limit a request that spells the
    address differently (another letter case, no [0x]) and has no record of
    its own: that request goes on to amount normalization. *)
Theorem other_spelling_not_limited cfg w accs req a rec :
  ShouldBindJSON w = (req, None) ->
  IsHexAddress w (Address req) = true ->
  Address req <> a ->
  accs !! Address req = None ->
  serve cfg w (<[a := rec]> accs) = proceed cfg w req (ctx0 (<[a := rec]> accs)).
Proof.
  intros Hb Ha Hne Hnone. rewrite (serve_guard _ _ _ _ Hb Ha).
  assert (Hf : accounts (ctx0 (<[a := rec]> accs)) !! Address req = None).
  { cbn. rewrite lookup_insert_ne by congruence. exact Hnone. }
  now rewrite (bind_Next _ _ _ _ _ (checkCooldown_fresh cfg w _ _ Hf)).
Qed.

Lemma other_spelling_not_limited_witness :
  let w := Sample.world
             {| Network := "rpc.sepolia.mantle.xyz";
                Address := Faulty.addr_lower; Amount := "1.5" |}
             (Sample.hour 3) (Some (2 * 10 ^ 18), None) true Sample.send_ok in
  serve Sample.cfg24 w (Sample.recorded (Sample.hour 2)) =
  proceed Sample.cfg24 w
    {| Network := "rpc.sepolia.mantle.xyz"; Address := Faulty.addr_lower;
       Amount := "1.5" |}
    (ctx0 (Sample.recorded (Sample.hour 2))).
Proof.
  cbn zeta. unfold Sample.recorded. rewrite <- insert_empty.
  apply (other_spelling_not_limited Sample.cfg24
           (Sample.world
              {| Network := "rpc.sepolia.mantle.xyz";
                 Address := Faulty.addr_lower; Amount := "1.5" |}
              (Sample.hour 3) (Some (2 * 10 ^ 18), None) true Sample.send_ok)
           ∅ {| Network := "rpc.sepolia.mantle.xyz";
                Address := Faulty.addr_lower; Amount := "1.5" |}
           Sample.addr
           {| Account_Address := Sample.addr;
              LastWithdrawTime := Sample.hour 2 |}).
  - reflexivity.
  - vm_compute; reflexivity.
  - discriminate.
  - apply lookup_empty.
Defined.

(** ** The configured interval *)

(** X20: for an interval of at most 2562047 hours in absolute value, the
    product of line 92 does not wrap: the cooldown is the interval in
    hours, in nanoseconds. *)
Theorem cooldown_exact_within_range cfg :
  -2562047 <= integerDefault cfg <= 2562047 ->
  cooldown cfg = integerDefault cfg * Hour.
Proof.
  intros H. unfold cooldown. apply wrap64_id.
  unfold int64_range, Hour, Second, Nanosecond. lia.
Qed.

Lemma cooldown_exact_within_range_witness :
  cooldown Sample.cfg24 = 24 * Hour.
Proof.
  apply (cooldown_exact_within_range Sample.cfg24). cbn. lia.
Defined.

(** X21: from 2562048 hours on the product of line 92 overflows [int64]:
    up to 5124095 hours the cooldown is the product less [2^64], a negative
    duration. *)
Theorem cooldown_overflow_is_negative cfg :
  2562048 <= integerDefault cfg <= 5124095 ->
  cooldown cfg = integerDefault cfg * Hour - 2 ^ 64 /\ cooldown cfg < 0.
Proof.
  intros H. unfold cooldown, wrap64, Hour, Second, Nanosecond.
  replace ((integerDefault cfg * (3600 * (1000000000 * 1)) + 2 ^ 63) mod 2 ^ 64)
    with (integerDefault cfg * (3600 * (1000000000 * 1)) + 2 ^ 63 - 2 ^ 64).
  - lia.
  - apply Z.mod_unique with (q := 1); lia.
Qed.

Lemma cooldown_overflow_is_negative_witness :
  cooldown {| integerDefault := 2562048; privateKeyDefault := "4c0883a6";
              portDefault := ":6010"; explorerUrlDefault := "" |} < 0.
Proof.
  destruct (cooldown_overflow_is_negative
              {| integerDefault := 2562048; privateKeyDefault := "4c0883a6";
                 portDefault := ":6010"; explorerUrlDefault := "" |})
    as [_ H].
  - cbn. lia.
  - exact H.
Defined.

(** X22: with a cooldown that is zero or negative (an interval of zero, a
    negative one, or one that overflowed) the guard is inert: a request for
    an address whose record is not in the future is never rejected, however
    recent the record. *)
Theorem nonpositive_cooldown_never_rejects cfg w accs req :
  cooldown cfg <= 0 ->
  ShouldBindJSON w = (req, None) ->
  IsHexAddress w (Address req) = true ->
  mono_reading (clock_Since w) ->
  (forall rec, accs !! Address req = Some rec ->
     mono_reading (LastWithdrawTime rec) /\
     LastWithdrawTime rec <= clock_Since w) ->
  serve cfg w accs = proceed cfg w req (ctx0 accs).
Proof.
  intros Hd Hb Ha Hs Hrec. rewrite (serve_guard _ _ _ _ Hb Ha).
  assert (Hc : not_in_cooldown cfg w accs (Address req)).
  { unfold not_in_cooldown. destruct (accs !! Address req) as [rec|]; [|done].
    destruct (Hrec rec eq_refl) as [Hm Hle].
    rewrite (subMono_exact _ _ Hs Hm). lia. }
  now rewrite (bind_Next _ _ _ _ _ (checkCooldown_pass _ _ _ _ Hc)).
Qed.

Lemma nonpositive_cooldown_never_rejects_witness :
  let cfg0 := {| integerDefault := 0; privateKeyDefault := "4c0883a6";
                 portDefault := ":6010"; explorerUrlDefault := "" |} in
  let w := Sample.world (Sample.req "1.5") (Sample.hour 30)
             (Some (2 * 10 ^ 18), None) true Sample.send_ok in
  serve cfg0 w (Sample.recorded (Sample.hour 30)) =
  proceed cfg0 w (Sample.req "1.5") (ctx0 (Sample.recorded (Sample.hour 30))).
Proof.
  cbn zeta.
  apply (nonpositive_cooldown_never_rejects
           {| integerDefault := 0; privateKeyDefault := "4c0883a6";
              portDefault := ":6010"; explorerUrlDefault := "" |}
           (Sample.world (Sample.req "1.5") (Sample.hour 30)
              (Some (2 * 10 ^ 18), None) true Sample.send_ok)
           (Sample.recorded (Sample.hour 30)) (Sample.req "1.5")).
  - vm_compute. discriminate.
  - reflexivity.
  - vm_compute; reflexivity.
  - vm_compute; split; [discriminate | reflexivity].
  - intros rec. unfold Sample.recorded. rewrite lookup_singleton.
    case_decide; [|discriminate]. intros [= <-].
    vm_compute. split; [split; [discriminate | reflexivity] | discriminate].
Defined.

(** ** Amounts that are not plain numbers *)

(** X23: an amount that parses without error to NaN makes line 108 panic:
    the handler ends in a panic with no response written, no external call
    made and the ledger as it was. *)
Theorem nan_amount_panics cfg w accs req :
  ShouldBindJSON w = (req, None) ->
  IsHexAddress w (Address req) = true ->
  not_in_cooldown cfg w accs (Address req) ->
  ParseFloat w (Amount req) = (NaN, None) ->
  serve cfg w accs = (Panicked, ctx0 accs).
Proof.
  intros Hb Ha Hc Hp. rewrite (serve_guard _ _ _ _ Hb Ha).
  rewrite (bind_Next _ _ _ _ _ (checkCooldown_pass _ _ _ _ Hc)).
  unfold proceed. apply bind_Panicked.
  unfold normalizeAmount. rewrite Hp. reflexivity.
Qed.

Lemma nan_amount_panics_witness :
  serve Sample.cfg24 (Faulty.with_amount NaN (Sample.hour 30)) ∅ =
  (Panicked, ctx0 ∅).
Proof.
  apply (nan_amount_panics Sample.cfg24
           (Faulty.with_amount NaN (Sample.hour 30)) ∅ (Sample.req "x")).
  - reflexivity.
  - vm_compute; reflexivity.
  - exact I.
  - reflexivity.
Defined.

(** X24: an amount that parses without error to an infinity is normalized
    to zero: line 111 leaves the fresh integer untouched, and the request
    goes through the pipeline as a transfer of 0. *)
Theorem infinite_amount_is_zero cfg w accs req neg :
  ShouldBindJSON w = (req, None) ->
  IsHexAddress w (Address req) = true ->
  not_in_cooldown cfg w accs (Address req) ->
  ParseFloat w (Amount req) = (Inf neg, None) ->
  serve cfg w accs = disburse cfg w req 0 (ctx0 accs).
Proof.
  intros Hb Ha Hc Hp. apply serve_accepted.
  split; [done..|]. exists (Inf neg). split; [done | reflexivity].
Qed.

Lemma infinite_amount_is_zero_witness :
  serve Sample.cfg24 (Faulty.with_amount (Inf false) (Sample.hour 30)) ∅ =
  disburse Sample.cfg24 (Faulty.with_amount (Inf false) (Sample.hour 30))
    (Sample.req "x") 0 (ctx0 ∅).
Proof.
  apply (infinite_amount_is_zero Sample.cfg24
           (Faulty.with_amount (Inf false) (Sample.hour 30)) ∅
           (Sample.req "x") false).
  - reflexivity.
  - vm_compute; reflexivity.
  - exact I.
  - reflexivity.
Defined.

Lemma toInt_negative m e :
  exists z, toInt (Finite true m e) = Some z /\ z <= 0.
Proof.
  unfold toInt, f64_1e18. cbn [NewFloat mbind option_bind].
  unfold Float_Mul. destruct (round53 _ _) as [m' e'].
  cbn [mbind option_bind Float_Int xorb].
  eexists. split; [reflexivity|].
  pose proof (proj2 (Z.shiftl_nonneg (Z.of_N m') e') (N2Z.is_nonneg m')). lia.
Qed.

(** X25: the sign of the amount is not checked.  A negative amount
    normalizes to an integer that is not positive, so any operator balance
    that is not negative passes the comparison of line 151, and the handler
    goes on to fetch the nonce. *)
Theorem negative_amount_passes_balance_check cfg w accs req m e key b berr :
  ShouldBindJSON w = (req, None) ->
  IsHexAddress w (Address req) = true ->
  not_in_cooldown cfg w accs (Address req) ->
  ParseFloat w (Amount req) = (Finite true m e, None) ->
  connected cfg w req key ->
  BalanceAt w (operator w key) = (Some b, berr) ->
  0 <= b ->
  exists rest,
    calls (serve cfg w accs) =
      ([EvDial ("https://" +:+ Network req); EvBalanceAt (operator w key);
        EvPendingNonceAt (PubkeyToAddress w key)] ++ rest)%list.
Proof.
  intros Hb Ha Hc Hp Hcon Hbal Hge.
  destruct (toInt_negative m e) as (z & Hz & Hle).
  assert (Hacc : accepted cfg w accs req z).
  { split; [done..|]. eauto. }
  assert (Hcmp : (Cmp b z =? -1) = false) by (apply Cmp_ge; lia).
  open_pipeline Hacc Hcon. unfold calls. exec. feed. cases; eauto.
Qed.

Lemma negative_amount_passes_balance_check_witness :
  exists rest,
    calls
      (serve Sample.cfg24
         (Faulty.with_amount (Finite true 3 (-1)) (Sample.hour 30)) ∅) =
      ([EvDial "https://rpc.sepolia.mantle.xyz"; EvBalanceAt 1007;
        EvPendingNonceAt 1007] ++ rest)%list.
Proof.
  apply (negative_amount_passes_balance_check Sample.cfg24
           (Faulty.with_amount (Finite true 3 (-1)) (Sample.hour 30))
           ∅ (Sample.req "x") 3 (-1) 7 5 None).
  - reflexivity.
  - vm_compute; reflexivity.
  - exact I.
  - reflexivity.
  - split; reflexivity.
  - reflexivity.
  - lia.
Defined.
